(** * Innovation-Dashboard: the Smartsheet proxy of [server.py] and [api/use-cases.py]

    A shallow embedding of the two copies of the sheet-to-domain
    transformation ([fetch_smartsheet_data] in [server.py],
    [_fetch_smartsheet_data] in [api/use-cases.py]) and of the request
    handlers that wrap them ([AppHandler._handle_api], [handler.do_GET]).

    Modelling conventions.
    - A value returned by [json.load]/[json.loads] is a [json] term.  JSON
      numbers are the integers ([JInt]); numbers with a fraction or an
      exponent (Python floats) are outside the model.
    - A Python [str] is a [string] whose characters are its code points;
      code points above U+00FF are outside the model.
    - A [dict] read from JSON is the list of its items in insertion order;
      the two lookup tables the code builds and only ever reads by key are
      [gmap]s over hashed keys; a record, whose item order reaches the
      output, is an association list updated the way a [dict] is.
    - A raised exception is a [Raise] result; the handlers match on its
      class the way the [except] clauses do.
    - The environment, the configuration file, the remote API and the
      recursion limit the JSON encoder runs into are the fields of a [world];
      the one effect of a fetch on it, its call of [urlopen], is logged
      there.  Writing a response to the client's socket is taken to
      succeed. *)

From Stdlib Require Import ZArith String Ascii List Lia DecimalString Sorted.
From stdpp Require Import base option list strings gmap.

Open Scope Z_scope.
Open Scope string_scope.
Open Scope list_scope.

(** ** JSON values and the Python operations the code applies to them *)

#[warnings="-register-all"]
Inductive json : Type :=
| JNull
| JBool (b : bool)
| JInt (z : Z)
| JStr (s : string)
| JArr (l : list json)
| JObj (d : list (string * json)).

(** [type(v).__name__] *)
Definition type_name (v : json) : string :=
  match v with
  | JNull => "NoneType"
  | JBool _ => "bool"
  | JInt _ => "int"
  | JStr _ => "str"
  | JArr _ => "list"
  | JObj _ => "dict"
  end.

(** [bool(v)]: what [if v], [a or b] test. *)
Definition truthy (v : json) : bool :=
  match v with
  | JNull => false
  | JBool b => b
  | JInt z => negb (Z.eqb z 0)
  | JStr s => negb (String.eqb s "")
  | JArr l => match l with [] => false | _ => true end
  | JObj d => match d with [] => false | _ => true end
  end.

(** [a or b] *)
Definition py_or (a b : json) : json := if truthy a then a else b.

(** [v == s] for a [str] [s]: only an equal [str] compares equal. *)
Definition py_eq_str (v : json) (s : string) : bool :=
  match v with
  | JStr t => String.eqb t s
  | _ => false
  end.

(** [l.count(s)] for a [str] [s] *)
Fixpoint py_count (l : list json) (s : string) : Z :=
  match l with
  | [] => 0
  | v :: l' => (if py_eq_str v s then 1 else 0) + py_count l' s
  end.

(** [len(l)] *)
Definition py_len {A : Type} (l : list A) : Z := Z.of_nat (length l).

(** ** Exceptions *)

Inductive exn : Type :=
| RuntimeError (msg : string)
| HTTPError (code : Z) (reason : string)
| URLError (msg : string)
| OSError (msg : string)
| ValueError (msg : string)
| KeyError (key : string)
| TypeError (msg : string)
| AttributeError (msg : string)
| RecursionError (msg : string)
| HTTPException (msg : string).

(** [isinstance(e, RuntimeError)]: [RecursionError] is a subclass. *)
Definition runtime_error (e : exn) : bool :=
  match e with
  | RuntimeError _ | RecursionError _ => true
  | _ => false
  end.

(** [f"{n}"] for an [int] *)
Definition str_of_int (n : Z) : string := NilZero.string_of_int (Z.to_int n).

(** [str(exc)]; a [KeyError] prints the [repr] of its key, and the only
    keys the code subscripts with are plain literals. *)
Definition exn_str (e : exn) : string :=
  match e with
  | RuntimeError msg => msg
  | HTTPError code reason => "HTTP Error " +:+ str_of_int code +:+ ": " +:+ reason
  | URLError msg => msg
  | OSError msg => msg
  | ValueError msg => msg
  | KeyError key => "'" +:+ key +:+ "'"
  | TypeError msg => msg
  | AttributeError msg => msg
  | RecursionError msg => msg
  | HTTPException msg => msg
  end.

Inductive result (A : Type) : Type :=
| Ok (a : A)
| Raise (e : exn).
Arguments Ok {A} a.
Arguments Raise {A} e.

#[global] Instance result_ret : MRet result := λ A a, Ok a.
#[global] Instance result_bind : MBind result :=
  λ A B f m, match m with Ok a => f a | Raise e => Raise e end.

(** ** Dictionaries *)

(** A [dict] with [str] keys, items in insertion order. *)
Abbreviation pydict := (list (string * json)).

(** [d.get(k)], [None] when absent *)
Fixpoint dict_get (k : string) (d : pydict) : option json :=
  match d with
  | [] => None
  | (k', v) :: d' => if decide (k' = k) then Some v else dict_get k d'
  end.

(** [d[k] = v]: an existing key keeps its place, a new one goes last. *)
Fixpoint dict_set (k : string) (v : json) (d : pydict) : pydict :=
  match d with
  | [] => [(k, v)]
  | (k', v') :: d' =>
      if decide (k' = k) then (k', v) :: d' else (k', v') :: dict_set k v d'
  end.

(** [list(d.keys())] *)
Definition dict_keys (d : pydict) : list string := map fst d.

(** [obj.get(k, dflt)]; only a [dict] has the method. *)
Definition py_get (obj : json) (k : string) (dflt : json) : result json :=
  match obj with
  | JObj d => Ok (default dflt (dict_get k d))
  | _ => Raise (AttributeError
                  ("'" +:+ type_name obj +:+ "' object has no attribute 'get'"))
  end.

(** [obj[k]] for a [str] key *)
Definition py_getitem (obj : json) (k : string) : result json :=
  match obj with
  | JObj d =>
      match dict_get k d with
      | Some v => Ok v
      | None => Raise (KeyError k)
      end
  | JArr _ => Raise (TypeError "list indices must be integers or slices, not str")
  | JStr _ => Raise (TypeError "string indices must be integers, not 'str'")
  | _ => Raise (TypeError ("'" +:+ type_name obj +:+ "' object is not subscriptable"))
  end.

(** [obj.items()] *)
Definition py_items (obj : json) : result pydict :=
  match obj with
  | JObj d => Ok d
  | _ => Raise (AttributeError
                  ("'" +:+ type_name obj +:+ "' object has no attribute 'items'"))
  end.

(** The elements a [for] loop over [obj] visits: those of a list, the keys
    of a dict, the characters of a string. *)
Definition py_iter (obj : json) : result (list json) :=
  match obj with
  | JArr l => Ok l
  | JObj d => Ok (map (λ kv, JStr (fst kv)) d)
  | JStr s => Ok (map (λ c, JStr (String c EmptyString)) (list_ascii_of_string s))
  | _ => Raise (TypeError ("'" +:+ type_name obj +:+ "' object is not iterable"))
  end.

(** Keys of the lookup tables.  Python hashes and compares [True] as [1]
    and [False] as [0]; lists and dicts are unhashable. *)
Inductive pykey : Type :=
| KNone
| KInt (z : Z)
| KStr (s : string).

#[global] Instance pykey_eq_dec : EqDecision pykey.
Proof. solve_decision. Defined.

#[global] Instance pykey_countable : Countable pykey.
Proof.
  refine (inj_countable'
            (λ k, match k with
                  | KNone => inl ()
                  | KInt z => inr (inl z)
                  | KStr s => inr (inr s)
                  end)
            (λ x, match x with
                  | inl _ => KNone
                  | inr (inl z) => KInt z
                  | inr (inr s) => KStr s
                  end) _).
  intros []; reflexivity.
Defined.

Definition py_hash (v : json) : result pykey :=
  match v with
  | JNull => Ok KNone
  | JBool b => Ok (KInt (if b then 1 else 0))
  | JInt z => Ok (KInt z)
  | JStr s => Ok (KStr s)
  | _ => Raise (TypeError ("unhashable type: '" +:+ type_name v +:+ "'"))
  end.

(** ** The sheet transformer *)

(** The two copies of the code: they differ in the order in which a column's
    two entries are read, in the text of the missing-token message and in
    the response headers. *)
Inductive variant : Type :=
| ServerPy
| UseCasesPy.

(** One column: [col_id_to_title[col["id"]] = col["title"]] evaluates the
    right-hand side first ([server.py]); the comprehension
    [{col["id"]: col["title"] for col in ...}] evaluates the key first
    ([api/use-cases.py]). *)
Definition read_column (v : variant) (col : json) : result (json * json) :=
  match v with
  | ServerPy =>
      title ← py_getitem col "title";
      id ← py_getitem col "id";
      mret (id, title)
  | UseCasesPy =>
      id ← py_getitem col "id";
      title ← py_getitem col "title";
      mret (id, title)
  end.

(** Column id → column title. *)
Fixpoint col_id_to_title_loop (v : variant) (cols : list json)
    (tbl : gmap pykey json) : result (gmap pykey json) :=
  match cols with
  | [] => Ok tbl
  | col :: rest =>
      it ← read_column v col;
      k ← py_hash it.1;
      col_id_to_title_loop v rest (<[k := it.2]> tbl)
  end.

(** [sheet.get("columns", [])], as the loop visits it *)
Definition sheet_columns (sheet : json) : result (list json) :=
  cols_obj ← py_get sheet "columns" (JArr []);
  py_iter cols_obj.

Definition col_id_to_title (v : variant) (sheet : json)
    : result (gmap pykey json) :=
  cols ← sheet_columns sheet;
  col_id_to_title_loop v cols ∅.

(** [{v: k for k, v in col_map.items()}]: column title → field name. *)
Fixpoint title_to_field_loop (items : pydict)
    (tbl : gmap pykey string) : result (gmap pykey string) :=
  match items with
  | [] => Ok tbl
  | (k, v) :: rest =>
      key ← py_hash v;
      title_to_field_loop rest (<[key := k]> tbl)
  end.

Definition title_to_field (col_map : json) : result (gmap pykey string) :=
  items ← py_items col_map;
  title_to_field_loop items ∅.

(** [cell.get("displayValue") or cell.get("value") or ""]: the right
    operand of an [or] is evaluated only when the left one is falsy. *)
Definition cell_value (cell : json) : result json :=
  display_value ← py_get cell "displayValue" JNull;
  if truthy display_value then mret display_value
  else
    value ← py_get cell "value" JNull;
    mret (py_or value (JStr "")).

(** The field a cell's column resolves to:
    [title_to_field.get(col_id_to_title.get(cell.get("columnId", 0), ""))]. *)
Definition cell_field (c2t : gmap pykey json) (t2f : gmap pykey string)
    (cell : json) : result (option string) :=
  column_id ← py_get cell "columnId" (JInt 0);
  k ← py_hash column_id;
  let col_title := default (JStr "") (c2t !! k) in
  kt ← py_hash col_title;
  mret (t2f !! kt).

(** The body of the loop over a row's cells.  [field] is [None] or a
    [str], so [if field] tests for a non-empty string. *)
Definition process_cell (c2t : gmap pykey json) (t2f : gmap pykey string)
    (record : pydict) (cell : json) : result pydict :=
  field ← cell_field c2t t2f cell;
  match field with
  | Some field =>
      if decide (field = "") then mret record
      else
        value ← cell_value cell;
        mret (dict_set field value record)
  | None => mret record
  end.

Fixpoint cells_loop (c2t : gmap pykey json) (t2f : gmap pykey string)
    (cells : list json) (record : pydict) : result pydict :=
  match cells with
  | [] => Ok record
  | cell :: rest =>
      record' ← process_cell c2t t2f record cell;
      cells_loop c2t t2f rest record'
  end.

(** The record of one row, before the name test. *)
Definition build_record (c2t : gmap pykey json) (t2f : gmap pykey string)
    (idx : Z) (row : json) : result pydict :=
  cells_obj ← py_get row "cells" (JArr []);
  cells ← py_iter cells_obj;
  cells_loop c2t t2f cells [("id", JInt idx)].

(** [if record.get("name")] *)
Definition has_name (record : pydict) : bool :=
  truthy (default JNull (dict_get "name" record)).

(** [for idx, row in enumerate(rows, start=1)], threading [use_cases]. *)
Fixpoint rows_loop (c2t : gmap pykey json) (t2f : gmap pykey string)
    (idx : Z) (rows : list json) (use_cases : list pydict)
    : result (list pydict) :=
  match rows with
  | [] => Ok use_cases
  | row :: rest =>
      record ← build_record c2t t2f idx row;
      rows_loop c2t t2f (idx + 1) rest
        (if has_name record then use_cases ++ [record] else use_cases)
  end.

Record summary_t : Type := Summary {
  total_initiatives : Z;
  in_production : Z;
  poc_done : Z;
  poc_in_progress : Z
}.

Record payload : Type := Payload {
  metadata_title : json;
  metadata_source : string;
  metadata_last_updated : string;
  summary : summary_t;
  use_cases : list pydict
}.

(** [uc.get("status", "")] for each retained record *)
Definition statuses_of (ucs : list pydict) : list json :=
  map (λ uc, default (JStr "") (dict_get "status" uc)) ucs.

Definition compute_summary (ucs : list pydict) : summary_t :=
  let statuses := statuses_of ucs in
  {| total_initiatives := py_len ucs;
     in_production := py_count statuses "In Production";
     poc_done := py_count statuses "POC Done";
     poc_in_progress := py_count statuses "POC In Progress" |}.

(** [sheet.get("rows", [])], as the loop visits it *)
Definition sheet_rows (sheet : json) : result (list json) :=
  rows_obj ← py_get sheet "rows" (JArr []);
  py_iter rows_obj.

(** The part of [fetch_smartsheet_data] / [_fetch_smartsheet_data] after
    the sheet has been read: from [sheet] and [col_map] to the payload. *)
Definition transform (v : variant) (sheet col_map : json) : result payload :=
  c2t ← col_id_to_title v sheet;
  t2f ← title_to_field col_map;
  rows ← sheet_rows sheet;
  ucs ← rows_loop c2t t2f 1 rows [];
  let summary := compute_summary ucs in
  title ← py_get sheet "name" (JStr "AI Use Cases");
  mret {| metadata_title := title;
          metadata_source := "Smartsheet (live)";
          metadata_last_updated := "live";
          summary := summary;
          use_cases := ucs |}.

(** ** The fetch and the request handlers *)

(** [c.isspace()] for a code point below 256 *)
Definition is_space (c : ascii) : bool :=
  let n := nat_of_ascii c in
  ((9 <=? n)%nat && (n <=? 13)%nat) || ((28 <=? n)%nat && (n <=? 32)%nat)
  || (n =? 133)%nat || (n =? 160)%nat.

Fixpoint lstrip (s : string) : string :=
  match s with
  | EmptyString => EmptyString
  | String c s' => if is_space c then lstrip s' else s
  end.

Fixpoint rstrip (s : string) : string :=
  match s with
  | EmptyString => EmptyString
  | String c s' =>
      match rstrip s' with
      | EmptyString => if is_space c then EmptyString else String c EmptyString
      | r => String c r
      end
  end.

(** [s.strip()] *)
Definition strip (s : string) : string := rstrip (lstrip s).

(** What [urllib.request.Request] is built from: the sheet id formatted
    into the URL and the two headers. *)
Record request : Type := Request {
  req_sheet_id : json;
  req_authorization : string;
  req_accept : string
}.

(** Opening and decoding the configuration file: [open] fails with an
    [OSError] when the file is absent or unreadable; [json.load] fails with
    a [ValueError] when the content is not JSON and with a [RecursionError]
    when it is nested deeper than the interpreter's recursion limit. *)
Inductive config_outcome : Type :=
| ConfigOSError (msg : string)
| ConfigValueError (msg : string)
| ConfigLoaded (config : json)
| ConfigRecursionError (msg : string).

(** What one call of [urlopen], with the reading and decoding of the
    response that follows it, comes to.  [urlopen] raises [HTTPError] for a
    final response whose status is not 2xx, [URLError] when the connection
    fails, an [http.client] exception when the URL is rejected before
    anything is sent or the response is broken, an [OSError] when reading
    times out, a [ValueError] for a header it rejects or a body that is not
    UTF-8 or not JSON, and [json.loads] a [RecursionError] for a body
    nested deeper than the recursion limit.  How many requests went over the
    network by then (none for a rejected URL, several after redirects) is
    not part of the model. *)
Inductive upstream_outcome : Type :=
| UpHTTPError (code : Z) (reason : string)
| UpURLError (msg : string)
| UpValueError (msg : string)
| UpSheet (sheet : json)
| UpOSError (msg : string)
| UpHTTPException (msg : string)
| UpRecursionError (msg : string).

(** What [json.dumps(payload, indent=2)] comes to: with [indent] the
    encoder runs in Python and recurses on nested values, so it returns or
    raises [RecursionError]. *)
Inductive dumps_outcome : Type :=
| DumpsOk
| DumpsRecursionError (msg : string).

(** [opened] lists the requests [urlopen] has been called with. *)
Record world : Type := World {
  environ_token : option string;
  config_file : config_outcome;
  upstream : request → upstream_outcome;
  encoder : json → dumps_outcome;
  opened : list request
}.

(** [load_smartsheet_config] / [_load_config] *)
Definition load_smartsheet_config (w : world) : result json :=
  match config_file w with
  | ConfigOSError msg => Raise (OSError msg)
  | ConfigValueError msg => Raise (ValueError msg)
  | ConfigLoaded config => Ok config
  | ConfigRecursionError msg => Raise (RecursionError msg)
  end.

(** [urlopen(req, timeout=15)] followed by [json.loads(resp.read().decode())];
    the call is logged whatever its outcome. *)
Definition urlopen (req : request) (w : world) : result json * world :=
  let w' := {| environ_token := environ_token w;
               config_file := config_file w;
               upstream := upstream w;
               encoder := encoder w;
               opened := opened w ++ [req] |} in
  match upstream w req with
  | UpHTTPError code reason => (Raise (HTTPError code reason), w')
  | UpURLError msg => (Raise (URLError msg), w')
  | UpValueError msg => (Raise (ValueError msg), w')
  | UpSheet sheet => (Ok sheet, w')
  | UpOSError msg => (Raise (OSError msg), w')
  | UpHTTPException msg => (Raise (HTTPException msg), w')
  | UpRecursionError msg => (Raise (RecursionError msg), w')
  end.

(** [json.dumps(value, indent=2)]; the value stands for its text. *)
Definition json_dumps (w : world) (value : json) : result json :=
  match encoder w value with
  | DumpsOk => Ok value
  | DumpsRecursionError msg => Raise (RecursionError msg)
  end.

(** The request for a sheet: the id goes into the URL, the token into the
    [Authorization] header. *)
Definition build_request (token : string) (sheet_id : json) : request :=
  {| req_sheet_id := sheet_id;
     req_authorization := "Bearer " +:+ token;
     req_accept := "application/json" |}.

Definition token_message (v : variant) : string :=
  match v with
  | ServerPy =>
      "SMARTSHEET_API_TOKEN environment variable is not set. "
      +:+ "Export it before starting the server for Smartsheet mode."
  | UseCasesPy => "SMARTSHEET_API_TOKEN is not configured."
  end.

(** [fetch_smartsheet_data] ([server.py]) and [_fetch_smartsheet_data]
    ([api/use-cases.py]). *)
Definition fetch_smartsheet_data (v : variant) (w : world)
    : result payload * world :=
  let token := strip (default "" (environ_token w)) in
  if decide (token = "") then (Raise (RuntimeError (token_message v)), w)
  else
    match load_smartsheet_config w with
    | Raise e => (Raise e, w)
    | Ok config =>
        match py_getitem config "sheet_id" with
        | Raise e => (Raise e, w)
        | Ok sheet_id =>
            match py_getitem config "column_map" with
            | Raise e => (Raise e, w)
            | Ok col_map =>
                match urlopen (build_request token sheet_id) w with
                | (Raise e, w') => (Raise e, w')
                | (Ok sheet, w') => (transform v sheet col_map, w')
                end
            end
        end
    end.

(** The [dict] the fetch returns, as [json.dumps] receives it. *)
Definition payload_json (p : payload) : json :=
  JObj [("metadata",
         JObj [("title", metadata_title p);
               ("source", JStr (metadata_source p));
               ("last_updated", JStr (metadata_last_updated p))]);
        ("summary",
         JObj [("total_initiatives", JInt (total_initiatives (summary p)));
               ("in_production", JInt (in_production (summary p)));
               ("poc_done", JInt (poc_done (summary p)));
               ("poc_in_progress", JInt (poc_in_progress (summary p)))]);
        ("use_cases", JArr (map JObj (use_cases p)))].

(** A response: the status line, the headers and the value whose
    [json.dumps] is the body.  The [Content-Length] header of [server.py],
    the byte length of the serialised body, is not part of the model. *)
Record response : Type := Response {
  status : Z;
  headers : list (string * string);
  body : json
}.

(** [_send_error(code, message)] *)
Definition send_error (code : Z) (message : string) : response :=
  {| status := code;
     headers := [("Content-Type", "application/json")];
     body := JObj [("error", JStr message)] |}.

Definition cache_control (v : variant) : string :=
  match v with
  | ServerPy => "no-cache"
  | UseCasesPy => "s-maxage=60, stale-while-revalidate=300"
  end.

(** The [except] clauses of the handlers, tried in order:
    [except RuntimeError] also catches a [RecursionError]. *)
Definition error_response (e : exn) : response :=
  match e with
  | RuntimeError msg | RecursionError msg => send_error 503 msg
  | HTTPError code reason =>
      send_error 502
        ("Smartsheet API returned " +:+ str_of_int code +:+ ": " +:+ reason)
  | _ => send_error 500 ("Internal error: " +:+ exn_str e)
  end.

(** The body of the [try]: the fetch, then the encoding of its payload. *)
Definition api_attempt (v : variant) (w : world) : result json * world :=
  match fetch_smartsheet_data v w with
  | (Ok p, w') => (json_dumps w' (payload_json p), w')
  | (Raise e, w') => (Raise e, w')
  end.

(** [AppHandler._handle_api] ([server.py]) and [handler.do_GET]
    ([api/use-cases.py]). *)
Definition handle_api (v : variant) (w : world) : response * world :=
  match api_attempt v w with
  | (Ok text, w') =>
      ({| status := 200;
          headers := [("Content-Type", "application/json");
                      ("Cache-Control", cache_control v)];
          body := text |}, w')
  | (Raise e, w') => (error_response e, w')
  end.

(** ** Vocabulary of the specification *)

(** The keys of the FieldMap. *)
Definition field_map_keys (col_map : json) : list string :=
  match col_map with
  | JObj d => dict_keys d
  | _ => []
  end.

(** [recs] holds, row by row, the record built for each row of the sheet,
    retained or not; the row at 0-based position [i] is built with id
    [i + 1]. *)
Definition row_records (v : variant) (sheet col_map : json)
    (recs : list pydict) : Prop :=
  ∃ c2t t2f rows,
    col_id_to_title v sheet = Ok c2t ∧
    title_to_field col_map = Ok t2f ∧
    sheet_rows sheet = Ok rows ∧
    length recs = length rows ∧
    ∀ (i : nat) row, rows !! i = Some row →
      ∃ r, recs !! i = Some r ∧
           build_record c2t t2f (Z.of_nat i + 1) row = Ok r.

(** Invariants of a record under construction: its keys other than [id]
    are fields of the table, and its values under them are usable. *)
Definition record_ok (t2f : gmap pykey string) (r : pydict) : Prop :=
  (∀ k, In k (dict_keys r) → k = "id" ∨ ∃ kt, t2f !! kt = Some k) ∧
  (∀ k x, dict_get k r = Some x → k = "id" ∨ truthy x = true ∨ x = JStr "").

(** The [name] of a record is present and not the empty string. *)
Definition name_present (r : pydict) : Prop :=
  ∃ x, dict_get "name" r = Some x ∧ x ≠ JStr "".

(** The [status] of a record, the empty string when absent, is exactly
    [label]. *)
Definition status_is (label : string) (r : pydict) : bool :=
  match default (JStr "") (dict_get "status" r) with
  | JStr s => bool_decide (s = label)
  | _ => false
  end.

(** The ids of the retained records are the 1-based positions of their
    rows among all rows, and strictly increase along the output. *)
Definition positional_ids (v : variant) (sheet col_map : json) : Prop :=
  ∀ p, transform v sheet col_map = Ok p →
    ∃ recs,
      row_records v sheet col_map recs ∧
      use_cases p = List.filter has_name recs ∧
      (∀ (i : nat) r, recs !! i = Some r → has_name r = true →
         dict_get "id" r = Some (JInt (Z.of_nat i + 1))) ∧
      ∃ ids, map (dict_get "id") (use_cases p) = map (λ z, Some (JInt z)) ids ∧
             StronglySorted Z.lt ids.

(** A cell entry read as the specification's optional string: absent and
    [null] are both "no string". *)
Definition as_optional_string (o : option json) : option (option string) :=
  match o with
  | None => Some None
  | Some JNull => Some None
  | Some (JStr s) => Some (Some s)
  | Some _ => None
  end.

(** The precedence rule in the specification's words: the display value if
    non-empty, else the value if non-empty, else the empty string. *)
Definition spec_cell_value (display_value value : option string) : string :=
  match display_value with
  | Some (String c s) => String c s
  | _ =>
      match value with
      | Some (String c s) => String c s
      | _ => ""
      end
  end.

(** Every character of [s] is white space. *)
Fixpoint blank (s : string) : bool :=
  match s with
  | EmptyString => true
  | String c s' => is_space c && blank s'
  end.

(** No usable bearer token in the environment. *)
Definition token_missing (w : world) : Prop :=
  blank (default "" (environ_token w)) = true.

(** The configuration file cannot be opened. *)
Definition config_unavailable (w : world) : Prop :=
  ∃ msg, config_file w = ConfigOSError msg.

(** The exceptions a value of unexpected shape makes the interpreter raise. *)
Definition shape_error (e : exn) : bool :=
  match e with
  | KeyError _ | TypeError _ | AttributeError _ => true
  | _ => false
  end.

(** The exceptions the handlers answer with 500: all but [RuntimeError],
    its subclass [RecursionError], and [HTTPError]. *)
Definition other_exception (e : exn) : bool :=
  match e with
  | RuntimeError _ | RecursionError _ | HTTPError _ _ => false
  | _ => true
  end.

(** [s] occurs in [t]. *)
Definition occurs_in (s t : string) : Prop :=
  ∃ pre post, t = pre +:+ s +:+ post.

(** ** Sample inputs *)

Module Sample.

(** The end-to-end scenario of the specification. *)
Definition config : json :=
  JObj [("sheet_id", JStr "123");
        ("column_map", JObj [("name", JStr "Use Case"); ("status", JStr "Status")])].

Definition col_map : json :=
  JObj [("name", JStr "Use Case"); ("status", JStr "Status")].

Definition columns : json :=
  JArr [JObj [("id", JInt 1); ("title", JStr "Use Case")];
        JObj [("id", JInt 2); ("title", JStr "Status")]].

Definition row1 : json :=
  JObj [("cells", JArr [JObj [("columnId", JInt 1); ("value", JStr "Chatbot")];
                        JObj [("columnId", JInt 2); ("value", JStr "In Production")]])].

Definition row2 : json :=
  JObj [("cells", JArr [JObj [("columnId", JInt 1); ("value", JStr "")]])].

Definition sheet : json :=
  JObj [("columns", columns); ("rows", JArr [row1; row2])].

Definition world_ok : world :=
  {| environ_token := Some " secret ";
     config_file := ConfigLoaded config;
     upstream := λ _, UpSheet sheet;
     encoder := λ _, DumpsOk;
     opened := [] |}.

(** A token is set but the configuration file is absent. *)
Definition world_no_config : world :=
  {| environ_token := Some "secret";
     config_file := ConfigOSError "[Errno 2] No such file or directory";
     upstream := λ _, UpSheet sheet;
     encoder := λ _, DumpsOk;
     opened := [] |}.

(** No token at all. *)
Definition world_no_token : world :=
  {| environ_token := None;
     config_file := ConfigLoaded config;
     upstream := λ _, UpSheet sheet;
     encoder := λ _, DumpsOk;
     opened := [] |}.

(** The remote API answers 404. *)
Definition world_404 : world :=
  {| environ_token := Some "secret";
     config_file := ConfigLoaded config;
     upstream := λ _, UpHTTPError 404 "Not Found";
     encoder := λ _, DumpsOk;
     opened := [] |}.

(** The remote API answers with something that is not JSON. *)
Definition world_bad_json : world :=
  {| environ_token := Some "secret";
     config_file := ConfigLoaded config;
     upstream := λ _, UpValueError "Expecting value: line 1 column 1 (char 0)";
     encoder := λ _, DumpsOk;
     opened := [] |}.

(** A token is set and the sheet the remote API returns is nested too
    deep for [json.loads]. *)
Definition world_deep_sheet : world :=
  {| environ_token := Some "secret";
     config_file := ConfigLoaded config;
     upstream := λ _, UpRecursionError
                        "maximum recursion depth exceeded while decoding a JSON array from a unicode string";
     encoder := λ _, DumpsOk;
     opened := [] |}.

(** A FieldMap that maps the field [id] to a column of the sheet. *)
Definition col_map_id : json :=
  JObj [("id", JStr "Ref"); ("name", JStr "Use Case")].

Definition sheet_id : json :=
  JObj [("columns",
         JArr [JObj [("id", JInt 1); ("title", JStr "Ref")];
               JObj [("id", JInt 2); ("title", JStr "Use Case")]]);
        ("rows",
         JArr [JObj [("cells",
                      JArr [JObj [("columnId", JInt 1); ("value", JStr "X-7")];
                            JObj [("columnId", JInt 2); ("value", JStr "Chatbot")]])]])].

(** Three rows, the middle one without a name. *)
Definition sheet_gap : json :=
  JObj [("columns", columns); ("rows", JArr [row1; row2; row1])].

(** Two columns with the same id, two fields with the same title. *)
Definition sheet_dup_columns : json :=
  JObj [("columns",
         JArr [JObj [("id", JInt 7); ("title", JStr "Old")];
               JObj [("id", JInt 7); ("title", JStr "New")]])].

Definition col_map_dup_titles : json :=
  JObj [("name", JStr "Use Case"); ("title", JStr "Use Case")].

(** The tables the code builds from them. *)
Definition c2t_dup : gmap pykey json :=
  <[KInt 7 := JStr "New"]> (<[KInt 7 := JStr "Old"]> ∅).

Definition t2f_dup : gmap pykey string :=
  <[KStr "Use Case" := "title"]> (<[KStr "Use Case" := "name"]> ∅).




(** The output the specification gives for its end-to-end scenario. *)
Definition expected_use_cases : list pydict :=
  [[("id", JInt 1); ("name", JStr "Chatbot"); ("status", JStr "In Production")]].

Definition expected_summary : summary_t :=
  {| total_initiatives := 1; in_production := 1;
     poc_done := 0; poc_in_progress := 0 |}.

Definition expected : payload :=
  {| metadata_title := JStr "AI Use Cases";
     metadata_source := "Smartsheet (live)";
     metadata_last_updated := "live";
     summary := expected_summary;
     use_cases := expected_use_cases |}.

(** The lookup tables of the scenario. *)
Definition c2t : gmap pykey json :=
  <[KInt 2 := JStr "Status"]> (<[KInt 1 := JStr "Use Case"]> ∅).

Definition t2f : gmap pykey string :=
  <[KStr "Status" := "status"]> (<[KStr "Use Case" := "name"]> ∅).

End Sample.

(** ** The start of [server.py]: [load_dotenv] and the token notice *)

(** [os.environ]: variable name → value, names compared as they are
    written (as on POSIX). *)
Abbreviation environment := (gmap string string).

(** [s[n:]] *)
Fixpoint string_drop (n : nat) (s : string) : string :=
  match n, s with
  | O, _ => s
  | S n', String _ s' => string_drop n' s'
  | S _, EmptyString => EmptyString
  end.

(** [s.partition("=")] without the separator: the text before the first
    ["="] and the text after it; the whole string and [""] when there is
    none. *)
Fixpoint partition_eq (s : string) : string * string :=
  match s with
  | EmptyString => (EmptyString, EmptyString)
  | String c s' =>
      if Ascii.eqb c "="%char then (EmptyString, s')
      else (String c (partition_eq s').1, (partition_eq s').2)
  end.

(** A NUL character occurs in [s]. *)
Fixpoint has_nul (s : string) : bool :=
  match s with
  | EmptyString => false
  | String c s' => Ascii.eqb c "000"%char || has_nul s'
  end.

(** [os.environ[key] = value]: [putenv] rejects an embedded NUL, and the
    mapping is then left as it was. *)
Definition setenv (key value : string) (environ : environment)
    : result unit * environment :=
  if has_nul key || has_nul value
  then (Raise (ValueError "embedded null byte"), environ)
  else (Ok (), <[key := value]> environ).

(** What one line of the file assigns, if anything: the line is stripped,
    blank lines and comments are skipped, an ["export "] prefix is cut off,
    and the rest is split at the first ["="]. *)
Definition dotenv_entry (line : string) : option (string * string) :=
  let line := strip line in
  if bool_decide (line = "") || String.prefix "#" line then None
  else
    let line :=
      if String.prefix "export " line
      then string_drop (String.length "export ") line
      else line in
    let kv := partition_eq line in
    Some (strip kv.1, strip kv.2).

(** The body of the loop of [load_dotenv]. *)
Definition dotenv_line (line : string) (environ : environment)
    : result unit * environment :=
  match dotenv_entry line with
  | None => (Ok (), environ)
  | Some (key, value) =>
      if bool_decide (key ≠ "") && bool_decide (environ !! key = None)
      then setenv key value environ
      else (Ok (), environ)
  end.

Fixpoint dotenv_loop (lines : list string) (environ : environment)
    : result unit * environment :=
  match lines with
  | [] => (Ok (), environ)
  | line :: rest =>
      match dotenv_line line environ with
      | (Ok _, environ') => dotenv_loop rest environ'
      | (Raise e, environ') => (Raise e, environ')
      end
  end.

(** The [.env] file: not a regular file, one that [open] refuses, or the
    lines a loop over the open file yields. *)
Inductive dotenv_file : Type :=
| DotenvAbsent
| DotenvUnreadable (msg : string)
| DotenvLines (lines : list string).

(** [load_dotenv] *)
Definition load_dotenv (file : dotenv_file) (environ : environment)
    : result unit * environment :=
  match file with
  | DotenvAbsent => (Ok (), environ)
  | DotenvUnreadable msg => (Raise (OSError msg), environ)
  | DotenvLines lines => dotenv_loop lines environ
  end.

Definition token_variable : string := "SMARTSHEET_API_TOKEN".

(** [if os.environ.get("SMARTSHEET_API_TOKEN")] in the main block: [true]
    prints that the API route is available, [false] that it will return
    503. *)
Definition token_detected (environ : environment) : bool :=
  match environ !! token_variable with
  | Some value => negb (bool_decide (value = ""))
  | None => false
  end.

(** The world the handlers of a process with environment [environ] see. *)
Definition world_of (environ : environment) (config : config_outcome)
    (remote : request → upstream_outcome) (dumps : json → dumps_outcome)
    (log : list request) : world :=
  {| environ_token := environ !! token_variable;
     config_file := config;
     upstream := remote;
     encoder := dumps;
     opened := log |}.

(** ** Further vocabulary *)

(** [s] has no white space at either end. *)
Definition stripped (s : string) : Prop := lstrip s = s ∧ rstrip s = s.

(** No ["="] occurs in [s]. *)
Fixpoint no_equals (s : string) : bool :=
  match s with
  | EmptyString => true
  | String c s' => negb (Ascii.eqb c "="%char) && no_equals s'
  end.

(** [v] can be a dict key. *)
Definition hashable (v : json) : bool :=
  match v with
  | JArr _ | JObj _ => false
  | _ => true
  end.

(** A column with an id and a title, both hashable. *)
Definition well_formed_column (col : json) : bool :=
  match col with
  | JObj d =>
      match dict_get "id" d, dict_get "title" d with
      | Some id, Some title => hashable id && hashable title
      | _, _ => false
      end
  | _ => false
  end.

(** A cell that is a dict with a hashable column id, if any. *)
Definition well_formed_cell (cell : json) : bool :=
  match cell with
  | JObj d => hashable (default (JInt 0) (dict_get "columnId" d))
  | _ => false
  end.

(** A row that is a dict whose cells, if any, are a list of such cells. *)
Definition well_formed_row (row : json) : bool :=
  match row with
  | JObj d =>
      match default (JArr []) (dict_get "cells" d) with
      | JArr cells => forallb well_formed_cell cells
      | _ => false
      end
  | _ => false
  end.

(** A sheet that is a dict whose columns and rows, if any, are lists of
    such columns and rows. *)
Definition well_formed_sheet (sheet : json) : bool :=
  match sheet with
  | JObj d =>
      match default (JArr []) (dict_get "columns" d) with
      | JArr cols => forallb well_formed_column cols
      | _ => false
      end
      && match default (JArr []) (dict_get "rows" d) with
         | JArr rows => forallb well_formed_row rows
         | _ => false
         end
  | _ => false
  end.

(** A FieldMap that is a dict with hashable titles. *)
Definition well_formed_col_map (col_map : json) : bool :=
  match col_map with
  | JObj d => forallb (λ kv, hashable kv.2) d
  | _ => false
  end.

(** ** Results and dictionaries *)

Lemma bind_Ok_inv {A B : Type} (m : result A) (f : A → result B) (b : B) :
  m ≫= f = Ok b → ∃ a, m = Ok a ∧ f a = Ok b.
Proof. destruct m as [a|e]; simpl; [eauto | discriminate]. Qed.

Lemma ret_Ok_inv {A : Type} (a b : A) : mret a = Ok b → a = b.
Proof. intros H; injection H; auto. Qed.

Ltac inv_ok :=
  repeat match goal with
    | H : _ ≫= _ = Ok _ |- _ =>
        let a := fresh "a" in
        let Ha := fresh "Ha" in
        apply bind_Ok_inv in H as (a & Ha & H)
    | H : mret _ = Ok _ |- _ => apply ret_Ok_inv in H
    | H : Ok _ = Ok _ |- _ => injection H as H
    | H : Raise _ = Ok _ |- _ => discriminate H
    end.

Lemma dict_get_set_eq (k : string) (x : json) (d : pydict) :
  dict_get k (dict_set k x d) = Some x.
Proof.
  induction d as [|[k' x'] d IH]; simpl.
  - rewrite decide_True; auto.
  - destruct (decide (k' = k)) as [->|Hne]; simpl.
    + rewrite decide_True; auto.
    + rewrite decide_False; auto.
Qed.

Lemma dict_get_set_ne (k k' : string) (x : json) (d : pydict) :
  k ≠ k' → dict_get k' (dict_set k x d) = dict_get k' d.
Proof.
  intros Hne. induction d as [|[k0 x0] d IH]; simpl.
  - rewrite decide_False; auto.
  - destruct (decide (k0 = k)) as [->|Hne0]; simpl.
    + rewrite !decide_False; auto.
    + rewrite IH. reflexivity.
Qed.

Lemma dict_keys_set (k : string) (x : json) (d : pydict) (k' : string) :
  In k' (dict_keys (dict_set k x d)) → k' = k ∨ In k' (dict_keys d).
Proof.
  unfold dict_keys. induction d as [|[k0 x0] d IH]; simpl.
  - intros [<-|[]]; auto.
  - destruct (decide (k0 = k)) as [->|Hne0]; simpl.
    + intros [<-|H]; auto.
    + intros [<-|H]; auto. destruct (IH H); auto.
Qed.

Lemma dict_get_Some_key (k : string) (x : json) (d : pydict) :
  dict_get k d = Some x → In k (dict_keys d).
Proof.
  unfold dict_keys. induction d as [|[k0 x0] d IH]; simpl; [discriminate|].
  destruct (decide (k0 = k)) as [->|Hne]; auto.
Qed.

(** ** The lookup tables *)

(** The two copies read a column to the same pair whenever they read it. *)
Lemma read_column_variant (v v' : variant) (col : json) (it : json * json) :
  read_column v col = Ok it → read_column v' col = Ok it.
Proof.
  destruct v, v'; auto; unfold read_column; intros H; inv_ok; subst;
    rewrite Ha0; simpl; rewrite Ha; reflexivity.
Qed.

Lemma col_id_to_title_loop_variant (v v' : variant) (cols : list json) :
  ∀ tbl c2t, col_id_to_title_loop v cols tbl = Ok c2t →
             col_id_to_title_loop v' cols tbl = Ok c2t.
Proof.
  induction cols as [|col rest IH]; simpl; intros tbl c2t H; auto.
  inv_ok. rewrite (read_column_variant v v' _ _ Ha). simpl.
  rewrite Ha0. simpl. auto.
Qed.

(** Last write wins in the id → title table. *)
Lemma col_id_to_title_loop_last (v : variant) (post : list json) :
  ∀ (pre : list json) tbl c2t col id title k,
    col_id_to_title_loop v (pre ++ col :: post) tbl = Ok c2t →
    read_column v col = Ok (id, title) →
    py_hash id = Ok k →
    (∀ col' id' title', In col' post → read_column v col' = Ok (id', title') →
                        py_hash id' ≠ Ok k) →
    c2t !! k = Some title.
Proof.
  intros pre. induction pre as [|c pre IH]; simpl.
  - intros tbl c2t col id title k H Hcol Hk Hpost.
    rewrite Hcol in H. simpl in H. rewrite Hk in H. simpl in H.
    assert (Hkeep : ∀ l tbl', tbl' !! k = Some title →
              (∀ col' id' title', In col' l → read_column v col' = Ok (id', title') →
                                  py_hash id' ≠ Ok k) →
              col_id_to_title_loop v l tbl' = Ok c2t → c2t !! k = Some title).
    { clear. induction l as [|c l IHl]; simpl; intros tbl' Hl Hno Hrun.
      - inv_ok. subst. exact Hl.
      - inv_ok. destruct a as [id' title']. simpl in *.
        apply (IHl (<[a0:=title']> tbl')); auto.
        + rewrite lookup_insert_ne; auto.
          intros ->. apply (Hno c id' title'); auto.
        + intros col' i t Hin. apply Hno. auto. }
    apply (Hkeep post (<[k:=title]> tbl)); auto.
    apply lookup_insert_eq.
  - intros tbl c2t col id title k H Hcol Hk Hpost. inv_ok.
    eapply IH; eauto.
Qed.

(** Last write wins in the title → field table. *)
Lemma title_to_field_loop_last (post : pydict) :
  ∀ (pre : pydict) tbl t2f field title k,
    title_to_field_loop (pre ++ (field, title) :: post) tbl = Ok t2f →
    py_hash title = Ok k →
    (∀ field' title', In (field', title') post → py_hash title' ≠ Ok k) →
    t2f !! k = Some field.
Proof.
  intros pre. induction pre as [|[f t] pre IH]; simpl.
  - intros tbl t2f field title k H Hk Hpost.
    rewrite Hk in H. simpl in H.
    assert (Hkeep : ∀ l tbl', tbl' !! k = Some field →
              (∀ field' title', In (field', title') l → py_hash title' ≠ Ok k) →
              title_to_field_loop l tbl' = Ok t2f → t2f !! k = Some field).
    { clear. induction l as [|[f t] l IHl]; simpl; intros tbl' Hl Hno Hrun.
      - inv_ok. subst. exact Hl.
      - inv_ok. apply (IHl (<[a:=f]> tbl')); auto.
        + rewrite lookup_insert_ne; auto.
          intros ->. apply (Hno f t); auto.
        + intros f' t' Hin. apply (Hno f' t'). auto. }
    apply (Hkeep post (<[k:=field]> tbl)); auto.
    apply lookup_insert_eq.
  - intros tbl t2f field title k H Hk Hpost. inv_ok.
    eapply IH; eauto.
Qed.

(** Every field in the title → field table is a key of the FieldMap. *)
Lemma title_to_field_loop_fields (items : pydict) :
  ∀ tbl t2f, title_to_field_loop items tbl = Ok t2f →
    ∀ k field, t2f !! k = Some field →
               tbl !! k = Some field ∨ In field (dict_keys items).
Proof.
  induction items as [|[f t] items IH]; simpl; intros tbl t2f H k field Hk.
  - inv_ok. subst. auto.
  - inv_ok. destruct (IH _ _ H k field Hk) as [Hin|Hin]; auto.
    destruct (decide (a = k)) as [->|Hne].
    + rewrite lookup_insert_eq in Hin. injection Hin as ->. auto.
    + rewrite lookup_insert_ne in Hin; auto.
Qed.

Lemma title_to_field_fields (col_map : json) (t2f : gmap pykey string) :
  title_to_field col_map = Ok t2f →
  ∀ k field, t2f !! k = Some field → In field (field_map_keys col_map).
Proof.
  unfold title_to_field. intros H k field Hk. inv_ok.
  destruct col_map; simpl in Ha; try discriminate. inv_ok. subst.
  destruct (title_to_field_loop_fields _ _ _ H k field Hk) as [Hin|Hin]; auto.
  rewrite lookup_empty in Hin. discriminate.
Qed.

(** ** Cells and records *)

(** A recorded value is truthy or the empty string. *)
Lemma cell_value_usable (cell x : json) :
  cell_value cell = Ok x → truthy x = true ∨ x = JStr "".
Proof.
  unfold cell_value. intros H. inv_ok.
  destruct (truthy a) eqn:Ht.
  - inv_ok. subst. auto.
  - inv_ok. subst. unfold py_or. destruct (truthy a0) eqn:Ht0; auto.
Qed.

(** The value recorded for a dict cell, over all JSON values: the first
    truthy one of [displayValue] and [value], else the empty string. *)
Lemma cell_value_dict (d : pydict) :
  cell_value (JObj d) =
  Ok (let display_value := default JNull (dict_get "displayValue" d) in
      let value := default JNull (dict_get "value" d) in
      if truthy display_value then display_value
      else if truthy value then value else JStr "").
Proof.
  unfold cell_value, py_or. simpl.
  destruct (truthy (default JNull (dict_get "displayValue" d))); reflexivity.
Qed.


(** What one cell does to the record. *)
Lemma process_cell_cases c2t t2f (record record' : pydict) (cell : json) :
  process_cell c2t t2f record cell = Ok record' →
  record' = record ∨
  ∃ k field x, t2f !! k = Some field ∧ field ≠ "" ∧
               cell_field c2t t2f cell = Ok (Some field) ∧
               cell_value cell = Ok x ∧
               record' = dict_set field x record.
Proof.
  unfold process_cell. intros H. inv_ok.
  destruct a as [field|]; [|inv_ok; auto].
  destruct (decide (field = "")); [inv_ok; auto|].
  inv_ok. right.
  pose proof Ha as Hf. unfold cell_field in Hf. inv_ok.
  exists a2, field, a. subst. auto 10.
Qed.

Lemma record_ok_init t2f (idx : Z) : record_ok t2f [("id", JInt idx)].
Proof.
  split.
  - simpl. intros k [<-|[]]. auto.
  - simpl. intros k x. destruct (decide ("id" = k)); [auto | discriminate].
Qed.

Lemma process_cell_ok c2t t2f (record record' : pydict) (cell : json) :
  process_cell c2t t2f record cell = Ok record' →
  record_ok t2f record → record_ok t2f record'.
Proof.
  intros H [Hkeys Hvals].
  destruct (process_cell_cases _ _ _ _ _ H)
    as [->|(k & field & x & Hk & Hne & _ & Hx & ->)]; [split; auto|].
  split.
  - intros k' Hin. apply dict_keys_set in Hin as [->|Hin]; eauto.
  - intros k' x'. destruct (decide (field = k')) as [<-|Hd].
    + rewrite dict_get_set_eq. intros [= <-].
      right. eapply cell_value_usable; eauto.
    + rewrite dict_get_set_ne; auto.
Qed.

Lemma cells_loop_ok c2t t2f (cells : list json) :
  ∀ record record', cells_loop c2t t2f cells record = Ok record' →
    record_ok t2f record → record_ok t2f record'.
Proof.
  induction cells as [|cell rest IH]; simpl; intros record record' H Hok.
  - inv_ok. subst. auto.
  - inv_ok. eapply IH; eauto. eapply process_cell_ok; eauto.
Qed.

Lemma build_record_ok c2t t2f (idx : Z) (row : json) (r : pydict) :
  build_record c2t t2f idx row = Ok r → record_ok t2f r.
Proof.
  unfold build_record. intros H. inv_ok.
  eapply cells_loop_ok; eauto. apply record_ok_init.
Qed.

(** The positional id survives when no column resolves to the field [id]. *)
Lemma cells_loop_id c2t t2f (cells : list json) :
  (∀ k, t2f !! k ≠ Some "id") →
  ∀ record record', cells_loop c2t t2f cells record = Ok record' →
    dict_get "id" record' = dict_get "id" record.
Proof.
  intros Hno. induction cells as [|cell rest IH]; simpl; intros record record' H.
  - inv_ok. subst. auto.
  - inv_ok. rewrite (IH _ _ H).
    destruct (process_cell_cases _ _ _ _ _ Ha)
      as [->|(k & field & x & Hk & Hne & _ & Hx & ->)]; auto.
    apply dict_get_set_ne. intros ->. exact (Hno k Hk).
Qed.

Lemma build_record_id c2t t2f (idx : Z) (row : json) (r : pydict) :
  (∀ k, t2f !! k ≠ Some "id") →
  build_record c2t t2f idx row = Ok r →
  dict_get "id" r = Some (JInt idx).
Proof.
  unfold build_record. intros Hno H. inv_ok.
  rewrite (cells_loop_id _ _ _ Hno _ _ H). reflexivity.
Qed.

(** The name test of the code is the specification's "present and
    non-empty" on every record the code builds. *)
Lemma has_name_present t2f (r : pydict) :
  record_ok t2f r → has_name r = true ↔ name_present r.
Proof.
  intros [_ Hvals]. unfold has_name, name_present. split.
  - destruct (dict_get "name" r) as [x|] eqn:Hx; simpl; [|discriminate].
    intros Ht. exists x. split; auto. intros ->. discriminate.
  - intros (x & Hx & Hne). rewrite Hx. simpl.
    destruct (Hvals _ _ Hx) as [Hid|[Ht|He]]; [discriminate|auto|contradiction].
Qed.

(** ** The loop over the rows *)

Lemma rows_loop_records c2t t2f (rows : list json) :
  ∀ (idx : Z) (acc ucs : list pydict),
    rows_loop c2t t2f idx rows acc = Ok ucs →
    ∃ recs,
      length recs = length rows ∧
      (∀ (i : nat) row, rows !! i = Some row →
         ∃ r, recs !! i = Some r ∧
              build_record c2t t2f (idx + Z.of_nat i) row = Ok r) ∧
      ucs = acc ++ List.filter has_name recs.
Proof.
  induction rows as [|row rest IH]; simpl; intros idx acc ucs H.
  - inv_ok. subst. exists []. simpl. split; [reflexivity|].
    split; [intros i row Hi; rewrite lookup_nil in Hi; discriminate|].
    rewrite app_nil_r. reflexivity.
  - inv_ok. destruct (IH _ _ _ H) as (recs & Hlen & Hrecs & Hucs).
    exists (a :: recs). split; [simpl; congruence|]. split.
    + intros [|i] row' Hi; simpl in Hi.
      * injection Hi as <-. exists a. split; [reflexivity|].
        rewrite Z.add_0_r. exact Ha.
      * destruct (Hrecs i row' Hi) as (r & Hr & Hb). exists r. split; auto.
        rewrite <- Hb. f_equal. lia.
    + simpl. rewrite Hucs. destruct (has_name a); simpl; auto.
      rewrite <- app_assoc. reflexivity.
Qed.

(** A successful transformation, stage by stage. *)
Lemma transform_Ok_inv (v : variant) (sheet col_map : json) (p : payload) :
  transform v sheet col_map = Ok p →
  ∃ c2t t2f rows,
    col_id_to_title v sheet = Ok c2t ∧
    title_to_field col_map = Ok t2f ∧
    sheet_rows sheet = Ok rows ∧
    rows_loop c2t t2f 1 rows [] = Ok (use_cases p) ∧
    summary p = compute_summary (use_cases p) ∧
    py_get sheet "name" (JStr "AI Use Cases") = Ok (metadata_title p) ∧
    metadata_source p = "Smartsheet (live)" ∧
    metadata_last_updated p = "live".
Proof.
  unfold transform. intros H. inv_ok. subst p. simpl.
  exists a, a0, a1. repeat split; auto.
Qed.

Lemma transform_records (v : variant) (sheet col_map : json) (p : payload) :
  transform v sheet col_map = Ok p →
  ∃ recs, row_records v sheet col_map recs ∧
          use_cases p = List.filter has_name recs.
Proof.
  intros H.
  destruct (transform_Ok_inv _ _ _ _ H)
    as (c2t & t2f & rows & Hc & Ht & Hr & Hloop & _).
  destruct (rows_loop_records _ _ _ _ _ _ Hloop) as (recs & Hlen & Hrecs & Hucs).
  exists recs. split; auto.
  exists c2t, t2f, rows. repeat split; auto.
  intros i row Hi. destruct (Hrecs i row Hi) as (r & Hr1 & Hr2).
  exists r. split; auto. rewrite <- Hr2. f_equal. lia.
Qed.

(** ** The end-to-end scenario *)

(** C1: on the specification's end-to-end input both copies of the
    transformer return exactly the one record
    [{"id": 1, "name": "Chatbot", "status": "In Production"}] and the summary
    [1, 1, 0, 0]; the record built for the second row has the empty string as
    its name and fails the name test; and a fetch in a world holding that
    configuration and sheet returns the same payload. *)
Theorem end_to_end_scenario (v : variant) :
  ∃ p,
    transform v Sample.sheet Sample.col_map = Ok p ∧
    use_cases p
    = [[("id", JInt 1); ("name", JStr "Chatbot"); ("status", JStr "In Production")]] ∧
    summary p
    = {| total_initiatives := 1; in_production := 1;
         poc_done := 0; poc_in_progress := 0 |} ∧
    p = Sample.expected ∧
    col_id_to_title v Sample.sheet = Ok Sample.c2t ∧
    title_to_field Sample.col_map = Ok Sample.t2f ∧
    build_record Sample.c2t Sample.t2f 2 Sample.row2
    = Ok [("id", JInt 2); ("name", JStr "")] ∧
    has_name [("id", JInt 2); ("name", JStr "")] = false ∧
    py_getitem Sample.config "column_map" = Ok Sample.col_map ∧
    (fetch_smartsheet_data v Sample.world_ok).1 = Ok p ∧
    status (handle_api v Sample.world_ok).1 = 200 ∧
    body (handle_api v Sample.world_ok).1 = payload_json p.
Proof.
  exists Sample.expected.
  destruct v; repeat split; vm_compute; reflexivity.
Qed.

(** ** Field precedence *)

Lemma as_optional_string_default (o : option json) (s : option string) :
  as_optional_string o = Some s →
  default JNull o = match s with Some t => JStr t | None => JNull end.
Proof.
  destruct o as [[]|]; simpl; intros H; try discriminate;
    injection H as <-; reflexivity.
Qed.

Lemma cell_value_strings (d : pydict) (dv value : option string) :
  as_optional_string (dict_get "displayValue" d) = Some dv →
  as_optional_string (dict_get "value" d) = Some value →
  cell_value (JObj d) = Ok (JStr (spec_cell_value dv value)).
Proof.
  intros Hdv Hv. rewrite cell_value_dict. simpl.
  rewrite (as_optional_string_default _ _ Hdv).
  rewrite (as_optional_string_default _ _ Hv).
  destruct dv as [[|c s]|], value as [[|c' s']|]; reflexivity.
Qed.

(** C3: for a cell whose column resolves to a field, with [displayValue]
    and [value] each absent, null or a string, the value recorded under
    that field is [displayValue] when it is a non-empty string, otherwise
    [value] when it is a non-empty string, otherwise the empty string. *)
Theorem recorded_value_precedence
    (c2t : gmap pykey json) (t2f : gmap pykey string)
    (record d : pydict) (field : string) (dv value : option string) :
  cell_field c2t t2f (JObj d) = Ok (Some field) →
  field ≠ "" →
  as_optional_string (dict_get "displayValue" d) = Some dv →
  as_optional_string (dict_get "value" d) = Some value →
  ∃ record',
    process_cell c2t t2f record (JObj d) = Ok record' ∧
    record' = dict_set field (JStr (spec_cell_value dv value)) record ∧
    dict_get field record' = Some (JStr (spec_cell_value dv value)).
Proof.
  intros Hf Hne Hdv Hv.
  exists (dict_set field (JStr (spec_cell_value dv value)) record).
  split; [|split; [reflexivity | apply dict_get_set_eq]].
  unfold process_cell. rewrite Hf. simpl.
  rewrite decide_False by exact Hne.
  rewrite (cell_value_strings _ _ _ Hdv Hv). reflexivity.
Qed.

(** The two cases the specification singles out: [value = "A"] with
    [displayValue = "B"] records ["B"]; [displayValue = ""] with
    [value = "A"] records ["A"]. *)
Lemma recorded_value_precedence_cases :
  (∃ record',
     process_cell Sample.c2t Sample.t2f [("id", JInt 1)]
       (JObj [("columnId", JInt 1); ("value", JStr "A"); ("displayValue", JStr "B")])
     = Ok record' ∧
     record' = dict_set "name" (JStr "B") [("id", JInt 1)] ∧
     dict_get "name" record' = Some (JStr "B")) ∧
  (∃ record',
     process_cell Sample.c2t Sample.t2f [("id", JInt 1)]
       (JObj [("columnId", JInt 1); ("displayValue", JStr ""); ("value", JStr "A")])
     = Ok record' ∧
     record' = dict_set "name" (JStr "A") [("id", JInt 1)] ∧
     dict_get "name" record' = Some (JStr "A")).
Proof.
  split.
  - apply (recorded_value_precedence Sample.c2t Sample.t2f [("id", JInt 1)]
             [("columnId", JInt 1); ("value", JStr "A"); ("displayValue", JStr "B")]
             "name" (Some "B") (Some "A")).
    + vm_compute. reflexivity.
    + discriminate.
    + reflexivity.
    + reflexivity.
  - apply (recorded_value_precedence Sample.c2t Sample.t2f [("id", JInt 1)]
             [("columnId", JInt 1); ("displayValue", JStr ""); ("value", JStr "A")]
             "name" (Some "") (Some "A")).
    + vm_compute. reflexivity.
    + discriminate.
    + reflexivity.
    + reflexivity.
Defined.

(** ** The name filter *)

Lemma row_records_ok (v : variant) (sheet col_map : json) (recs : list pydict) :
  row_records v sheet col_map recs →
  ∃ t2f, title_to_field col_map = Ok t2f ∧ ∀ r, In r recs → record_ok t2f r.
Proof.
  intros (c2t & t2f & rows & Hc & Ht & Hr & Hlen & Hrecs).
  exists t2f. split; auto. intros r Hin.
  apply list_elem_of_In, list_elem_of_lookup in Hin as [i Hi].
  destruct (lookup_lt_is_Some_2 rows i) as [row Hrow].
  { rewrite <- Hlen. eapply lookup_lt_Some; eauto. }
  destruct (Hrecs i row Hrow) as (r' & Hr' & Hb).
  rewrite Hi in Hr'. injection Hr' as <-.
  eapply build_record_ok; eauto.
Qed.

(** C4: the output holds, in order, exactly those row records that pass
    the name test, and a row record passes it if and only if its [name] is
    present and not the empty string; so every output record has a
    non-empty name. *)
Theorem name_filter (v : variant) (sheet col_map : json) (p : payload) :
  transform v sheet col_map = Ok p →
  ∃ recs,
    row_records v sheet col_map recs ∧
    use_cases p = List.filter has_name recs ∧
    (∀ r, In r recs → (In r (use_cases p) ↔ name_present r)) ∧
    (∀ r, In r (use_cases p) → name_present r).
Proof.
  intros H. destruct (transform_records _ _ _ _ H) as (recs & Hrecs & Hucs).
  destruct (row_records_ok _ _ _ _ Hrecs) as (t2f & _ & Hok).
  exists recs. split; auto. split; auto.
  assert (Hiff : ∀ r, In r recs → (In r (use_cases p) ↔ name_present r)).
  { intros r Hin. rewrite Hucs, filter_In.
    rewrite (has_name_present t2f r (Hok r Hin)). tauto. }
  split; auto.
  intros r Hin. apply Hiff; auto.
  rewrite Hucs in Hin. apply filter_In in Hin. tauto.
Qed.

Lemma name_filter_scenario :
  ∃ recs,
    row_records ServerPy Sample.sheet Sample.col_map recs ∧
    use_cases Sample.expected = List.filter has_name recs ∧
    (∀ r, In r recs → (In r (use_cases Sample.expected) ↔ name_present r)) ∧
    (∀ r, In r (use_cases Sample.expected) → name_present r).
Proof.
  apply (name_filter ServerPy Sample.sheet Sample.col_map Sample.expected).
  vm_compute. reflexivity.
Defined.

(** ** The summary *)

Lemma py_count_status (label : string) (ucs : list pydict) :
  py_count (statuses_of ucs) label
  = Z.of_nat (length (List.filter (status_is label) ucs)).
Proof.
  induction ucs as [|uc ucs IH]; simpl; [reflexivity|].
  fold (statuses_of ucs). rewrite IH.
  unfold status_is at 2.
  destruct (default (JStr "") (dict_get "status" uc)) as [| | |s| |]; simpl; auto.
  destruct (String.eqb_spec s label) as [->|Hne].
  - rewrite bool_decide_eq_true_2 by reflexivity. simpl. lia.
  - rewrite bool_decide_eq_false_2 by exact Hne. simpl. reflexivity.
Qed.

(** C5: [total_initiatives] is the length of [use_cases], and each of the
    three counters is the number of retained records whose [status], the
    empty string when absent, is exactly the counter's label. *)
Theorem summary_counts (v : variant) (sheet col_map : json) (p : payload) :
  transform v sheet col_map = Ok p →
  total_initiatives (summary p) = Z.of_nat (length (use_cases p)) ∧
  in_production (summary p)
  = Z.of_nat (length (List.filter (status_is "In Production") (use_cases p))) ∧
  poc_done (summary p)
  = Z.of_nat (length (List.filter (status_is "POC Done") (use_cases p))) ∧
  poc_in_progress (summary p)
  = Z.of_nat (length (List.filter (status_is "POC In Progress") (use_cases p))).
Proof.
  intros H.
  destruct (transform_Ok_inv _ _ _ _ H) as (_ & _ & _ & _ & _ & _ & _ & Hs & _).
  rewrite Hs. unfold compute_summary. simpl.
  rewrite !py_count_status. auto.
Qed.

Lemma summary_counts_scenario :
  total_initiatives (summary Sample.expected)
  = Z.of_nat (length (use_cases Sample.expected)) ∧
  in_production (summary Sample.expected)
  = Z.of_nat (length (List.filter (status_is "In Production")
                        (use_cases Sample.expected))) ∧
  poc_done (summary Sample.expected)
  = Z.of_nat (length (List.filter (status_is "POC Done")
                        (use_cases Sample.expected))) ∧
  poc_in_progress (summary Sample.expected)
  = Z.of_nat (length (List.filter (status_is "POC In Progress")
                        (use_cases Sample.expected))).
Proof.
  apply (summary_counts ServerPy Sample.sheet Sample.col_map Sample.expected).
  vm_compute. reflexivity.
Defined.

(** The comparison is case-sensitive and exact. *)
Example status_is_exact :
  status_is "In Production" [("id", JInt 1); ("status", JStr "In Production")] = true ∧
  status_is "In Production" [("id", JInt 1); ("status", JStr "in production")] = false ∧
  status_is "In Production" [("id", JInt 1); ("status", JStr "In Production ")] = false ∧
  status_is "In Production" [("id", JInt 1)] = false.
Proof. repeat split. Qed.

(** ** Field names *)

(** C9: every key of every output record is [id] or a key of the
    FieldMap. *)
Theorem record_keys_in_field_map
    (v : variant) (sheet col_map : json) (p : payload) (r : pydict) (k : string) :
  transform v sheet col_map = Ok p →
  In r (use_cases p) → In k (dict_keys r) →
  k = "id" ∨ In k (field_map_keys col_map).
Proof.
  intros H Hr Hk.
  destruct (transform_records _ _ _ _ H) as (recs & Hrecs & Hucs).
  destruct (row_records_ok _ _ _ _ Hrecs) as (t2f & Ht & Hok).
  rewrite Hucs in Hr. apply filter_In in Hr as [Hr _].
  destruct (Hok r Hr) as [Hkeys _].
  destruct (Hkeys k Hk) as [->|[kt Hkt]]; auto.
  right. eapply title_to_field_fields; eauto.
Qed.

Lemma record_keys_in_field_map_scenario :
  "status" = "id" ∨ In "status" (field_map_keys Sample.col_map).
Proof.
  apply (record_keys_in_field_map ServerPy Sample.sheet Sample.col_map
           Sample.expected
           [("id", JInt 1); ("name", JStr "Chatbot"); ("status", JStr "In Production")]
           "status").
  - vm_compute. reflexivity.
  - simpl. auto.
  - simpl. auto.
Defined.

(** ** Collisions in the lookup tables *)

(** C7: of two columns with the same id, the later one (when no column
    after it has that id again) gives the title found in the id → title
    table; of two fields mapped to the same title, the later-inserted one
    (when no field after it has that title again) is the one found in the
    title → field table. *)
Theorem last_write_wins :
  (∀ v sheet c2t pre col1 mid col2 post id1 title1 id2 title2 k,
     sheet_columns sheet = Ok (pre ++ col1 :: mid ++ col2 :: post) →
     col_id_to_title v sheet = Ok c2t →
     read_column v col1 = Ok (id1, title1) → py_hash id1 = Ok k →
     read_column v col2 = Ok (id2, title2) → py_hash id2 = Ok k →
     (∀ col' id' title', In col' post → read_column v col' = Ok (id', title') →
                         py_hash id' ≠ Ok k) →
     c2t !! k = Some title2) ∧
  (∀ col_map t2f pre field1 title1 mid field2 title2 post k,
     py_items col_map
     = Ok (pre ++ (field1, title1) :: mid ++ (field2, title2) :: post) →
     title_to_field col_map = Ok t2f →
     py_hash title1 = Ok k → py_hash title2 = Ok k →
     (∀ field' title', In (field', title') post → py_hash title' ≠ Ok k) →
     t2f !! k = Some field2).
Proof.
  split.
  - intros v sheet c2t pre col1 mid col2 post id1 title1 id2 title2 k
      Hcols Hc _ _ H2 Hk2 Hpost.
    unfold col_id_to_title in Hc. rewrite Hcols in Hc. simpl in Hc.
    replace (pre ++ col1 :: mid ++ col2 :: post)
      with ((pre ++ col1 :: mid) ++ col2 :: post) in Hc
      by (rewrite <- app_assoc; reflexivity).
    eapply col_id_to_title_loop_last; eauto.
  - intros col_map t2f pre field1 title1 mid field2 title2 post k
      Hitems Ht _ Hk2 Hpost.
    unfold title_to_field in Ht. rewrite Hitems in Ht. simpl in Ht.
    replace (pre ++ (field1, title1) :: mid ++ (field2, title2) :: post)
      with ((pre ++ (field1, title1) :: mid) ++ (field2, title2) :: post) in Ht
      by (rewrite <- app_assoc; reflexivity).
    eapply title_to_field_loop_last; eauto.
Qed.

Lemma last_write_wins_samples :
  Sample.c2t_dup !! KInt 7 = Some (JStr "New") ∧
  Sample.t2f_dup !! KStr "Use Case" = Some "title".
Proof.
  split.
  - apply (proj1 last_write_wins ServerPy Sample.sheet_dup_columns Sample.c2t_dup
             [] (JObj [("id", JInt 7); ("title", JStr "Old")])
             [] (JObj [("id", JInt 7); ("title", JStr "New")]) []
             (JInt 7) (JStr "Old") (JInt 7) (JStr "New") (KInt 7)).
    + reflexivity.
    + vm_compute. reflexivity.
    + reflexivity.
    + reflexivity.
    + reflexivity.
    + reflexivity.
    + intros col' id' title' [].
  - apply (proj2 last_write_wins Sample.col_map_dup_titles Sample.t2f_dup
             [] "name" (JStr "Use Case") [] "title" (JStr "Use Case") []
             (KStr "Use Case")).
    + reflexivity.
    + vm_compute. reflexivity.
    + reflexivity.
    + reflexivity.
    + intros field' title' [].
Defined.

(** ** Positional ids *)

Lemma filter_ids_sorted (recs : list pydict) :
  ∀ base : Z,
    (∀ (i : nat) r, recs !! i = Some r →
       dict_get "id" r = Some (JInt (base + Z.of_nat i))) →
    ∃ ids,
      map (dict_get "id") (List.filter has_name recs)
      = map (λ z, Some (JInt z)) ids ∧
      StronglySorted Z.lt ids ∧
      Forall (λ z, (base <= z)%Z) ids.
Proof.
  induction recs as [|r recs IH]; intros base Hid.
  - exists []. simpl. repeat split; constructor.
  - destruct (IH (base + 1)) as (ids & Hmap & Hsorted & Hlow).
    { intros i r' Hi. rewrite (Hid (S i) r' Hi). do 2 f_equal. lia. }
    pose proof (Hid 0%nat r eq_refl) as Hr. rewrite Z.add_0_r in Hr.
    simpl. destruct (has_name r).
    + exists (base :: ids). simpl. rewrite Hr, Hmap. split; [reflexivity|].
      split.
      * constructor; auto. eapply Forall_impl; [exact Hlow|].
        simpl. intros z Hz. lia.
      * constructor; [lia|]. eapply Forall_impl; [exact Hlow|].
        simpl. intros z Hz. lia.
    + exists ids. split; auto. split; auto.
      eapply Forall_impl; [exact Hlow|]. simpl. intros z Hz. lia.
Qed.

Lemma positional_ids_without_id_field (v : variant) (sheet col_map : json) :
  ¬ In "id" (field_map_keys col_map) → positional_ids v sheet col_map.
Proof.
  intros Hno p H.
  destruct (transform_records _ _ _ _ H) as (recs & Hrecs & Hucs).
  exists recs. split; auto. split; auto.
  assert (Hid : ∀ (i : nat) r, recs !! i = Some r →
                dict_get "id" r = Some (JInt (Z.of_nat i + 1))).
  { destruct Hrecs as (c2t & t2f & rows & Hc & Ht & Hr & Hlen & Hall).
    intros i r Hi.
    destruct (lookup_lt_is_Some_2 rows i) as [row Hrow].
    { rewrite <- Hlen. eapply lookup_lt_Some; eauto. }
    destruct (Hall i row Hrow) as (r' & Hr' & Hb).
    rewrite Hi in Hr'. injection Hr' as <-.
    eapply build_record_id; eauto.
    intros k Hk. apply Hno. eapply title_to_field_fields; eauto. }
  split; [auto|].
  destruct (filter_ids_sorted recs 1) as (ids & Hmap & Hsorted & _).
  { intros i r Hi. rewrite (Hid i r Hi). do 2 f_equal. lia. }
  exists ids. rewrite Hucs. auto.
Qed.

(** C6, as stated, fails: with the FieldMap [{"id": "Ref", "name": "Use Case"}]
    the only row of the sheet is retained with id ["X-7"], not [1]. *)
Lemma ids_not_positional_with_id_field :
  ¬ positional_ids ServerPy Sample.sheet_id Sample.col_map_id.
Proof.
  intros Hpos.
  destruct (Hpos {| metadata_title := JStr "AI Use Cases";
                    metadata_source := "Smartsheet (live)";
                    metadata_last_updated := "live";
                    summary := {| total_initiatives := 1; in_production := 0;
                                  poc_done := 0; poc_in_progress := 0 |};
                    use_cases := [[("id", JStr "X-7"); ("name", JStr "Chatbot")]] |})
    as (recs & _ & Hucs & Hid & _).
  { vm_compute. reflexivity. }
  simpl in Hucs.
  assert (Hin : In [("id", JStr "X-7"); ("name", JStr "Chatbot")]
                  (List.filter has_name recs)).
  { rewrite <- Hucs. simpl. auto. }
  apply filter_In in Hin as [Hin Hname].
  apply list_elem_of_In, list_elem_of_lookup in Hin as [i Hi].
  specialize (Hid i _ Hi Hname). simpl in Hid. discriminate.
Qed.

(** C6, amended: when [id] is not a key of the FieldMap, the output keeps
    the order of the rows, every retained record's id is the 1-based
    position of its row among all rows, and the ids strictly increase along
    the output. *)
Theorem positional_ids_when_id_not_a_field
    (v : variant) (sheet col_map : json) :
  ¬ In "id" (field_map_keys col_map) → positional_ids v sheet col_map.
Proof. apply positional_ids_without_id_field. Qed.

Lemma positional_ids_with_a_gap :
  positional_ids ServerPy Sample.sheet_gap Sample.col_map.
Proof.
  apply (positional_ids_when_id_not_a_field ServerPy Sample.sheet_gap Sample.col_map).
  simpl. intros [H|[H|[]]]; discriminate.
Defined.

(** The ids need not be contiguous: the middle row of three is dropped and
    the output ids are 1 and 3. *)
Example ids_skip_dropped_rows (v : variant) :
  ∃ p, transform v Sample.sheet_gap Sample.col_map = Ok p ∧
       map (dict_get "id") (use_cases p) = [Some (JInt 1); Some (JInt 3)].
Proof. destruct v; eexists; split; vm_compute; reflexivity. Qed.

(** ** A FieldMap with the key [id] *)



(** ** White space *)

Lemma blank_lstrip (s : string) : blank (lstrip s) = blank s.
Proof.
  induction s as [|c s IH]; simpl; [reflexivity|].
  destruct (is_space c) eqn:Hc; simpl; [exact IH|].
  rewrite Hc. reflexivity.
Qed.

Lemma rstrip_empty (s : string) : rstrip s = "" ↔ blank s = true.
Proof.
  induction s as [|c s IH]; simpl; [tauto|].
  destruct (rstrip s) as [|c' r].
  - rewrite (proj1 IH eq_refl), andb_true_r.
    destruct (is_space c); split; auto; discriminate.
  - destruct (blank s).
    + destruct IH as [_ IH]. discriminate (IH eq_refl).
    + rewrite andb_false_r. split; discriminate.
Qed.

(** The stripped token is empty exactly when the token is blank. *)
Lemma strip_empty (s : string) : strip s = "" ↔ blank s = true.
Proof. unfold strip. rewrite rstrip_empty, blank_lstrip. tauto. Qed.

(** ** What the transformer can raise *)

Lemma bind_Raise_inv {A B : Type} (m : result A) (f : A → result B) (e : exn) :
  m ≫= f = Raise e → m = Raise e ∨ ∃ a, m = Ok a ∧ f a = Raise e.
Proof.
  destruct m as [a|e']; simpl; intros H; [right; exists a; auto|left].
  injection H as ->. reflexivity.
Qed.

Ltac inv_raise :=
  repeat match goal with
    | H : _ ≫= _ = Raise _ |- _ =>
        let a := fresh "a" in
        let Ha := fresh "Ha" in
        apply bind_Raise_inv in H as [H | (a & Ha & H)]
    | H : mret _ = Raise _ |- _ => discriminate H
    | H : Ok _ = Raise _ |- _ => discriminate H
    | H : Raise _ = Raise _ |- _ => injection H as <-
    end.

Create HintDb raises.

Lemma py_get_raises obj k dflt e :
  py_get obj k dflt = Raise e → shape_error e = true.
Proof. destruct obj; simpl; intros H; inv_raise; reflexivity. Qed.

Lemma py_getitem_raises obj k e :
  py_getitem obj k = Raise e → shape_error e = true.
Proof.
  destruct obj; simpl; intros H; inv_raise; try reflexivity.
  destruct (dict_get k d); inv_raise. reflexivity.
Qed.

Lemma py_items_raises obj e : py_items obj = Raise e → shape_error e = true.
Proof. destruct obj; simpl; intros H; inv_raise; reflexivity. Qed.

Lemma py_iter_raises obj e : py_iter obj = Raise e → shape_error e = true.
Proof. destruct obj; simpl; intros H; inv_raise; reflexivity. Qed.

Lemma py_hash_raises x e : py_hash x = Raise e → shape_error e = true.
Proof. destruct x; simpl; intros H; inv_raise; reflexivity. Qed.

#[local] Hint Resolve py_get_raises py_getitem_raises py_items_raises
  py_iter_raises py_hash_raises : raises.

Lemma read_column_raises v col e :
  read_column v col = Raise e → shape_error e = true.
Proof. destruct v; simpl; intros H; inv_raise; eauto with raises. Qed.

#[local] Hint Resolve read_column_raises : raises.

Lemma col_id_to_title_loop_raises v cols :
  ∀ tbl e, col_id_to_title_loop v cols tbl = Raise e → shape_error e = true.
Proof.
  induction cols as [|col rest IH]; simpl; intros tbl e H; inv_raise;
    eauto with raises.
Qed.

Lemma title_to_field_loop_raises items :
  ∀ tbl e, title_to_field_loop items tbl = Raise e → shape_error e = true.
Proof.
  induction items as [|[k x] rest IH]; simpl; intros tbl e H; inv_raise;
    eauto with raises.
Qed.

#[local] Hint Resolve col_id_to_title_loop_raises title_to_field_loop_raises
  : raises.

Lemma col_id_to_title_raises v sheet e :
  col_id_to_title v sheet = Raise e → shape_error e = true.
Proof.
  unfold col_id_to_title, sheet_columns. intros H; inv_raise; eauto with raises.
Qed.

Lemma title_to_field_raises col_map e :
  title_to_field col_map = Raise e → shape_error e = true.
Proof. unfold title_to_field. intros H; inv_raise; eauto with raises. Qed.

Lemma sheet_rows_raises sheet e :
  sheet_rows sheet = Raise e → shape_error e = true.
Proof. unfold sheet_rows. intros H; inv_raise; eauto with raises. Qed.

Lemma cell_value_raises cell e :
  cell_value cell = Raise e → shape_error e = true.
Proof.
  unfold cell_value. intros H; inv_raise; eauto with raises.
  destruct (truthy a); inv_raise; eauto with raises.
Qed.

Lemma cell_field_raises c2t t2f cell e :
  cell_field c2t t2f cell = Raise e → shape_error e = true.
Proof. unfold cell_field. intros H; inv_raise; eauto with raises. Qed.

#[local] Hint Resolve col_id_to_title_raises title_to_field_raises
  sheet_rows_raises cell_value_raises cell_field_raises : raises.

Lemma process_cell_raises c2t t2f record cell e :
  process_cell c2t t2f record cell = Raise e → shape_error e = true.
Proof.
  unfold process_cell. intros H; inv_raise; eauto with raises.
  destruct a as [field|]; inv_raise.
  destruct (decide (field = "")); inv_raise; eauto with raises.
Qed.

#[local] Hint Resolve process_cell_raises : raises.

Lemma cells_loop_raises c2t t2f cells :
  ∀ record e, cells_loop c2t t2f cells record = Raise e → shape_error e = true.
Proof.
  induction cells as [|cell rest IH]; simpl; intros record e H; inv_raise;
    eauto with raises.
Qed.

#[local] Hint Resolve cells_loop_raises : raises.

Lemma build_record_raises c2t t2f idx row e :
  build_record c2t t2f idx row = Raise e → shape_error e = true.
Proof. unfold build_record. intros H; inv_raise; eauto with raises. Qed.

#[local] Hint Resolve build_record_raises : raises.

Lemma rows_loop_raises c2t t2f rows :
  ∀ idx acc e, rows_loop c2t t2f idx rows acc = Raise e → shape_error e = true.
Proof.
  induction rows as [|row rest IH]; simpl; intros idx acc e H; inv_raise;
    eauto with raises.
Qed.

#[local] Hint Resolve rows_loop_raises : raises.

(** Whatever the sheet and the FieldMap, a failing transformation raises
    [KeyError], [TypeError] or [AttributeError]. *)
Lemma transform_raises v sheet col_map e :
  transform v sheet col_map = Raise e → shape_error e = true.
Proof. unfold transform. intros H; inv_raise; eauto with raises. Qed.

Lemma col_id_to_title_variant (v v' : variant) (sheet : json) c2t :
  col_id_to_title v sheet = Ok c2t → col_id_to_title v' sheet = Ok c2t.
Proof.
  unfold col_id_to_title. intros H.
  apply bind_Ok_inv in H as (cols & Hcols & H). rewrite Hcols. simpl.
  eapply col_id_to_title_loop_variant; eauto.
Qed.

(** Both copies of the transformer return the same payload. *)
Lemma transform_variant (v v' : variant) (sheet col_map : json) (p : payload) :
  transform v sheet col_map = Ok p → transform v' sheet col_map = Ok p.
Proof.
  unfold transform. intros H.
  apply bind_Ok_inv in H as (c2t & Hc & H).
  rewrite (col_id_to_title_variant v v' _ _ Hc). exact H.
Qed.

(** ** The fetch *)

Lemma append_assoc (s t u : string) : (s +:+ t) +:+ u = s +:+ t +:+ u.
Proof.
  induction s as [|c s IH]; [reflexivity|].
  change (String c ((s +:+ t) +:+ u) = String c (s +:+ t +:+ u)).
  f_equal. exact IH.
Qed.

Lemma append_empty_r (s : string) : s +:+ "" = s.
Proof.
  induction s as [|c s IH]; [reflexivity|].
  change (String c (s +:+ "") = String c s).
  f_equal. exact IH.
Qed.

Lemma token_missing_strip (w : world) :
  strip (default "" (environ_token w)) = "" ↔ token_missing w.
Proof. apply strip_empty. Qed.

Ltac fetch_cases w :=
  unfold fetch_smartsheet_data, load_smartsheet_config, urlopen;
  let Htok := fresh "Htok" in
  let Hcfg := fresh "Hcfg" in
  let Hsid := fresh "Hsid" in
  let Hcm := fresh "Hcm" in
  let Hup := fresh "Hup" in
  destruct (decide (strip (default "" (environ_token w)) = "")) as [Htok|Htok];
  [ apply token_missing_strip in Htok
  | rewrite token_missing_strip in Htok;
    destruct (config_file w) as [?msg|?msg|?config|?msg] eqn:Hcfg;
    [ | | destruct (py_getitem config "sheet_id") as [?sheet_id|?e] eqn:Hsid;
          [ destruct (py_getitem config "column_map") as [?col_map|?e] eqn:Hcm;
            [ destruct (upstream w (build_request
                          (strip (default "" (environ_token w))) sheet_id))
                as [?code ?reason|?msg|?msg|?sheet|?msg|?msg|?msg] eqn:Hup
            | ]
          | ]
      | ] ];
  simpl.

(** The fetch raises the missing-token [RuntimeError] before it looks at
    anything else. *)
Lemma fetch_token_missing (v : variant) (w : world) :
  token_missing w →
  fetch_smartsheet_data v w = (Raise (RuntimeError (token_message v)), w).
Proof.
  intros Hm. unfold fetch_smartsheet_data.
  rewrite decide_True; [reflexivity | apply token_missing_strip; exact Hm].
Qed.

Lemma shape_error_other (e : exn) : shape_error e = true → other_exception e = true.
Proof. destruct e; simpl; auto. Qed.

(** How a fetch can fail: for want of a token; with a [RecursionError]
    of a JSON decoder; with an [HTTPError] of the remote API; or with one of
    the exceptions answered with 500. *)
Lemma fetch_raise_inv (v : variant) (w : world) (e : exn) :
  (fetch_smartsheet_data v w).1 = Raise e →
  (token_missing w ∧ e = RuntimeError (token_message v)) ∨
  (¬ token_missing w ∧ other_exception e = true) ∨
  (¬ token_missing w ∧
   ∃ config sheet_id col_map code reason,
     config_file w = ConfigLoaded config ∧
     py_getitem config "sheet_id" = Ok sheet_id ∧
     py_getitem config "column_map" = Ok col_map ∧
     upstream w (build_request (strip (default "" (environ_token w))) sheet_id)
     = UpHTTPError code reason ∧
     e = HTTPError code reason) ∨
  (¬ token_missing w ∧ ∃ msg, e = RecursionError msg).
Proof.
  fetch_cases w; intros H; try (injection H as <-);
    try (left; split; [assumption | reflexivity]);
    try (right; left; split;
         [assumption
         | first [reflexivity
                 | apply shape_error_other;
                   solve [eauto using py_getitem_raises, transform_raises]]]);
    try (right; right; right; split; [assumption | eexists; reflexivity]).
  right. right. left. split; auto.
  exists config, sheet_id, col_map, code, reason. auto.
Qed.

Lemma fetch_http_error (v : variant) (w : world)
    (config sheet_id col_map : json) (code : Z) (reason : string) :
  ¬ token_missing w →
  config_file w = ConfigLoaded config →
  py_getitem config "sheet_id" = Ok sheet_id →
  py_getitem config "column_map" = Ok col_map →
  upstream w (build_request (strip (default "" (environ_token w))) sheet_id)
  = UpHTTPError code reason →
  (fetch_smartsheet_data v w).1 = Raise (HTTPError code reason).
Proof.
  intros Hm Hc Hs Hcm Hup.
  unfold fetch_smartsheet_data, load_smartsheet_config, urlopen.
  rewrite decide_False by (rewrite token_missing_strip; exact Hm).
  rewrite Hc, Hs, Hcm, Hup. reflexivity.
Qed.

Lemma fetch_config_unavailable (v : variant) (w : world) (msg : string) :
  ¬ token_missing w → config_file w = ConfigOSError msg →
  fetch_smartsheet_data v w = (Raise (OSError msg), w).
Proof.
  intros Hm Hc.
  unfold fetch_smartsheet_data, load_smartsheet_config.
  rewrite decide_False by (rewrite token_missing_strip; exact Hm).
  rewrite Hc. reflexivity.
Qed.

Lemma fetch_config_malformed (v : variant) (w : world) (msg : string) :
  ¬ token_missing w → config_file w = ConfigValueError msg →
  fetch_smartsheet_data v w = (Raise (ValueError msg), w).
Proof.
  intros Hm Hc.
  unfold fetch_smartsheet_data, load_smartsheet_config.
  rewrite decide_False by (rewrite token_missing_strip; exact Hm).
  rewrite Hc. reflexivity.
Qed.

(** With a token, a usable configuration and a decoded sheet, the fetch
    is the transformation of that sheet. *)
Lemma fetch_transform (v : variant) (w : world)
    (config sheet_id col_map sheet : json) :
  ¬ token_missing w →
  config_file w = ConfigLoaded config →
  py_getitem config "sheet_id" = Ok sheet_id →
  py_getitem config "column_map" = Ok col_map →
  upstream w (build_request (strip (default "" (environ_token w))) sheet_id)
  = UpSheet sheet →
  (fetch_smartsheet_data v w).1 = transform v sheet col_map.
Proof.
  intros Hm Hc Hs Hcm Hup.
  unfold fetch_smartsheet_data, load_smartsheet_config, urlopen.
  rewrite decide_False by (rewrite token_missing_strip; exact Hm).
  rewrite Hc, Hs, Hcm, Hup. reflexivity.
Qed.

Lemma fetch_upstream_malformed (v : variant) (w : world)
    (config sheet_id col_map : json) (msg : string) :
  ¬ token_missing w →
  config_file w = ConfigLoaded config →
  py_getitem config "sheet_id" = Ok sheet_id →
  py_getitem config "column_map" = Ok col_map →
  upstream w (build_request (strip (default "" (environ_token w))) sheet_id)
  = UpValueError msg →
  (fetch_smartsheet_data v w).1 = Raise (ValueError msg).
Proof.
  intros Hm Hc Hs Hcm Hup.
  unfold fetch_smartsheet_data, load_smartsheet_config, urlopen.
  rewrite decide_False by (rewrite token_missing_strip; exact Hm).
  rewrite Hc, Hs, Hcm, Hup. reflexivity.
Qed.

(** ** The request handlers *)

Lemma api_attempt_fetch (v : variant) (w : world) :
  (api_attempt v w).1 =
  match (fetch_smartsheet_data v w).1 with
  | Ok p => json_dumps (fetch_smartsheet_data v w).2 (payload_json p)
  | Raise e => Raise e
  end.
Proof.
  unfold api_attempt. destruct (fetch_smartsheet_data v w) as [[p|e] w'];
    reflexivity.
Qed.

Lemma api_attempt_raise (v : variant) (w : world) (e : exn) :
  (fetch_smartsheet_data v w).1 = Raise e → (api_attempt v w).1 = Raise e.
Proof. intros H. rewrite api_attempt_fetch, H. reflexivity. Qed.

Lemma json_dumps_cases (w : world) (value : json) :
  json_dumps w value = Ok value ∨
  ∃ msg, json_dumps w value = Raise (RecursionError msg).
Proof. unfold json_dumps. destruct (encoder w value); eauto. Qed.

(** How the body of the [try] can fail: as the fetch does, or with a
    [RecursionError] of the encoder. *)
Lemma api_attempt_raise_inv (v : variant) (w : world) (e : exn) :
  (api_attempt v w).1 = Raise e →
  (fetch_smartsheet_data v w).1 = Raise e ∨ ∃ msg, e = RecursionError msg.
Proof.
  rewrite api_attempt_fetch.
  destruct (fetch_smartsheet_data v w).1 as [p|e0];
    [|intros [= <-]; left; reflexivity].
  destruct (json_dumps_cases (fetch_smartsheet_data v w).2 (payload_json p))
    as [->|[msg ->]]; [discriminate|].
  intros [= <-]. eauto.
Qed.

Lemma api_attempt_Ok_inv (v : variant) (w : world) (text : json) :
  (api_attempt v w).1 = Ok text →
  ∃ p, (fetch_smartsheet_data v w).1 = Ok p ∧ text = payload_json p.
Proof.
  rewrite api_attempt_fetch.
  destruct (fetch_smartsheet_data v w).1 as [p|e0]; [|discriminate].
  destruct (json_dumps_cases (fetch_smartsheet_data v w).2 (payload_json p))
    as [->|[msg ->]]; [|discriminate].
  intros [= <-]. eauto.
Qed.

Lemma handle_api_attempt (v : variant) (w : world) :
  (handle_api v w).1 =
  match (api_attempt v w).1 with
  | Ok text =>
      {| status := 200;
         headers := [("Content-Type", "application/json");
                     ("Cache-Control", cache_control v)];
         body := text |}
  | Raise e => error_response e
  end.
Proof.
  unfold handle_api. destruct (api_attempt v w) as [[text|e] w']; reflexivity.
Qed.

Lemma error_response_other (e : exn) :
  other_exception e = true →
  error_response e = send_error 500 ("Internal error: " +:+ exn_str e).
Proof. destruct e; simpl; intros H; try discriminate H; reflexivity. Qed.

Lemma not_runtime_not_http_other (e : exn) :
  runtime_error e = false → (∀ code reason, e ≠ HTTPError code reason) →
  other_exception e = true.
Proof.
  destruct e; simpl; intros Hr Hh; try reflexivity; try discriminate Hr.
  destruct (Hh code reason). reflexivity.
Qed.

(** An answer 503 means no token, or a [RecursionError] in the [try]. *)
Lemma status_503_inv (v : variant) (w : world) :
  status (handle_api v w).1 = 503 →
  token_missing w ∨ ∃ msg, (api_attempt v w).1 = Raise (RecursionError msg).
Proof.
  rewrite handle_api_attempt.
  destruct (api_attempt v w).1 as [text|e] eqn:Ha; [discriminate|].
  destruct e; simpl; try discriminate; [|eauto].
  intros _. left.
  destruct (api_attempt_raise_inv _ _ _ Ha) as [Hf|[m Hm]]; [|discriminate Hm].
  destruct (fetch_raise_inv _ _ _ Hf)
    as [[Hm _]|[[_ He]|[(_ & c & s & m & code & reason & _ & _ & _ & _ & He)
                       |(_ & m & He)]]];
    [exact Hm | discriminate He | discriminate He | discriminate He].
Qed.

Lemma status_503_of_token_missing (v : variant) (w : world) :
  token_missing w →
  (handle_api v w).1 = send_error 503 (token_message v).
Proof.
  intros Hm. rewrite handle_api_attempt.
  rewrite (api_attempt_raise v w _
             (f_equal fst (fetch_token_missing v w Hm))).
  reflexivity.
Qed.

(** C2, as stated, fails: with a token set and the configuration file
    absent, both handlers answer 500, not 503. *)
Lemma config_unavailable_not_503 :
  config_unavailable Sample.world_no_config ∧
  status (handle_api ServerPy Sample.world_no_config).1 = 500 ∧
  status (handle_api UseCasesPy Sample.world_no_config).1 = 500 ∧
  ¬ (∀ v w, config_unavailable w → status (handle_api v w).1 = 503).
Proof.
  assert (Hc : config_unavailable Sample.world_no_config) by (eexists; reflexivity).
  split; [exact Hc|]. split; [reflexivity|]. split; [reflexivity|].
  intros H. specialize (H ServerPy Sample.world_no_config Hc).
  vm_compute in H. discriminate.
Qed.

(** C2, amended: a missing or blank token gives 503 with the handler's
    token message; with a token set, an absent or unreadable configuration
    file gives 500; an [HTTPError] of the remote API gives 502 with the
    message ["Smartsheet API returned <code>: <reason>"]; malformed JSON in
    the configuration or in the response, a sheet of unexpected shape, and
    every other failure in the [try] that is neither a [RuntimeError] nor an
    [HTTPError] gives 500 with ["Internal error: <text>"], and arises only
    with a token set; an answer 503 with a token set comes from a
    [RecursionError] alone; and every response that is not the 200 carries
    a body [{"error": <string>}]. *)
Theorem api_error_responses (v : variant) (w : world) :
  (token_missing w →
     status (handle_api v w).1 = 503 ∧
     body (handle_api v w).1 = JObj [("error", JStr (token_message v))]) ∧
  (status (handle_api v w).1 = 503 →
     token_missing w ∨
     ∃ msg, (api_attempt v w).1 = Raise (RecursionError msg)) ∧
  (∀ msg, ¬ token_missing w → config_file w = ConfigOSError msg →
     status (handle_api v w).1 = 500 ∧
     body (handle_api v w).1
     = JObj [("error", JStr ("Internal error: " +:+ msg))]) ∧
  (∀ config sheet_id col_map code reason,
     ¬ token_missing w →
     config_file w = ConfigLoaded config →
     py_getitem config "sheet_id" = Ok sheet_id →
     py_getitem config "column_map" = Ok col_map →
     upstream w (build_request (strip (default "" (environ_token w))) sheet_id)
     = UpHTTPError code reason →
     status (handle_api v w).1 = 502 ∧
     body (handle_api v w).1
     = JObj [("error",
              JStr ("Smartsheet API returned " +:+ str_of_int code
                    +:+ ": " +:+ reason))] ∧
     occurs_in (str_of_int code)
       ("Smartsheet API returned " +:+ str_of_int code +:+ ": " +:+ reason) ∧
     occurs_in reason
       ("Smartsheet API returned " +:+ str_of_int code +:+ ": " +:+ reason)) ∧
  (∀ msg, ¬ token_missing w → config_file w = ConfigValueError msg →
     status (handle_api v w).1 = 500 ∧
     body (handle_api v w).1
     = JObj [("error", JStr ("Internal error: " +:+ msg))]) ∧
  (∀ config sheet_id col_map msg,
     ¬ token_missing w →
     config_file w = ConfigLoaded config →
     py_getitem config "sheet_id" = Ok sheet_id →
     py_getitem config "column_map" = Ok col_map →
     upstream w (build_request (strip (default "" (environ_token w))) sheet_id)
     = UpValueError msg →
     status (handle_api v w).1 = 500 ∧
     body (handle_api v w).1
     = JObj [("error", JStr ("Internal error: " +:+ msg))]) ∧
  (∀ config sheet_id col_map sheet e,
     ¬ token_missing w →
     config_file w = ConfigLoaded config →
     py_getitem config "sheet_id" = Ok sheet_id →
     py_getitem config "column_map" = Ok col_map →
     upstream w (build_request (strip (default "" (environ_token w))) sheet_id)
     = UpSheet sheet →
     transform v sheet col_map = Raise e →
     status (handle_api v w).1 = 500 ∧
     body (handle_api v w).1
     = JObj [("error", JStr ("Internal error: " +:+ exn_str e))]) ∧
  (∀ e, (api_attempt v w).1 = Raise e →
     runtime_error e = false → (∀ code reason, e ≠ HTTPError code reason) →
     ¬ token_missing w ∧
     status (handle_api v w).1 = 500 ∧
     body (handle_api v w).1
     = JObj [("error", JStr ("Internal error: " +:+ exn_str e))]) ∧
  (status (handle_api v w).1 = 200 ∧
     (∃ p, (fetch_smartsheet_data v w).1 = Ok p ∧
           body (handle_api v w).1 = payload_json p)
   ∨ (status (handle_api v w).1 = 500 ∨ status (handle_api v w).1 = 502
      ∨ status (handle_api v w).1 = 503) ∧
     ∃ msg, body (handle_api v w).1 = JObj [("error", JStr msg)]).
Proof.
  assert (Hother : ∀ e, (api_attempt v w).1 = Raise e → other_exception e = true →
            status (handle_api v w).1 = 500 ∧
            body (handle_api v w).1
            = JObj [("error", JStr ("Internal error: " +:+ exn_str e))]).
  { intros e Ha He. rewrite handle_api_attempt, Ha, (error_response_other e He).
    split; reflexivity. }
  repeat apply conj.
  - intros Hm. rewrite (status_503_of_token_missing v w Hm). split; reflexivity.
  - apply status_503_inv.
  - intros msg Hm Hc.
    apply (Hother (OSError msg)); [|reflexivity].
    apply api_attempt_raise.
    rewrite (fetch_config_unavailable v w msg Hm Hc). reflexivity.
  - intros config sheet_id col_map code reason Hm Hc Hs Hcm Hup.
    rewrite handle_api_attempt.
    rewrite (api_attempt_raise v w _
               (fetch_http_error v w _ _ _ _ _ Hm Hc Hs Hcm Hup)).
    split; [reflexivity|]. split; [reflexivity|]. split.
    + exists "Smartsheet API returned ", (": " +:+ reason). reflexivity.
    + exists ("Smartsheet API returned " +:+ str_of_int code +:+ ": "), "".
      rewrite append_empty_r, !append_assoc. reflexivity.
  - intros msg Hm Hc.
    apply (Hother (ValueError msg)); [|reflexivity].
    apply api_attempt_raise.
    rewrite (fetch_config_malformed v w msg Hm Hc). reflexivity.
  - intros config sheet_id col_map msg Hm Hc Hs Hcm Hup.
    apply (Hother (ValueError msg)); [|reflexivity].
    apply api_attempt_raise.
    apply (fetch_upstream_malformed v w _ _ _ _ Hm Hc Hs Hcm Hup).
  - intros config sheet_id col_map sheet e Hm Hc Hs Hcm Hup Ht.
    apply (Hother e).
    + apply api_attempt_raise.
      rewrite (fetch_transform v w _ _ _ _ Hm Hc Hs Hcm Hup). exact Ht.
    + apply shape_error_other. eapply transform_raises; eauto.
  - intros e Ha Hr Hh.
    pose proof (not_runtime_not_http_other e Hr Hh) as He.
    split; [|apply (Hother e Ha He)].
    destruct (api_attempt_raise_inv _ _ _ Ha) as [Hf|[m ->]];
      [|discriminate Hr].
    destruct (fetch_raise_inv _ _ _ Hf)
      as [[_ ->]|[[Hm _]|[[Hm _]|[Hm _]]]]; auto. discriminate He.
  - rewrite handle_api_attempt.
    destruct (api_attempt v w).1 as [text|e] eqn:Ha.
    + left. split; [reflexivity|].
      destruct (api_attempt_Ok_inv _ _ _ Ha) as (p & Hf & ->).
      exists p. split; [exact Hf | reflexivity].
    + right. destruct e; simpl; eauto 10.
Qed.

Lemma api_error_responses_samples :
  (status (handle_api ServerPy Sample.world_no_token).1 = 503 ∧
   body (handle_api ServerPy Sample.world_no_token).1
   = JObj [("error", JStr (token_message ServerPy))]) ∧
  (status (handle_api UseCasesPy Sample.world_no_config).1 = 500 ∧
   body (handle_api UseCasesPy Sample.world_no_config).1
   = JObj [("error",
            JStr ("Internal error: " +:+ "[Errno 2] No such file or directory"))]) ∧
  (status (handle_api ServerPy Sample.world_404).1 = 502 ∧
   body (handle_api ServerPy Sample.world_404).1
   = JObj [("error",
            JStr ("Smartsheet API returned " +:+ str_of_int 404
                  +:+ ": " +:+ "Not Found"))] ∧
   occurs_in (str_of_int 404)
     ("Smartsheet API returned " +:+ str_of_int 404 +:+ ": " +:+ "Not Found") ∧
   occurs_in "Not Found"
     ("Smartsheet API returned " +:+ str_of_int 404 +:+ ": " +:+ "Not Found")) ∧
  (status (handle_api ServerPy Sample.world_bad_json).1 = 500 ∧
   body (handle_api ServerPy Sample.world_bad_json).1
   = JObj [("error",
            JStr ("Internal error: "
                  +:+ "Expecting value: line 1 column 1 (char 0)"))]) ∧
  (¬ token_missing Sample.world_bad_json ∧
   status (handle_api ServerPy Sample.world_bad_json).1 = 500 ∧
   body (handle_api ServerPy Sample.world_bad_json).1
   = JObj [("error",
            JStr ("Internal error: "
                  +:+ exn_str (ValueError "Expecting value: line 1 column 1 (char 0)")))]) ∧
  (token_missing Sample.world_deep_sheet ∨
   ∃ msg, (api_attempt ServerPy Sample.world_deep_sheet).1
          = Raise (RecursionError msg)).
Proof.
  split; [|split; [|split; [|split; [|split]]]].
  - apply (proj1 (api_error_responses ServerPy Sample.world_no_token)).
    reflexivity.
  - apply (proj1 (proj2 (proj2 (api_error_responses UseCasesPy Sample.world_no_config)))).
    + unfold token_missing. simpl. discriminate.
    + reflexivity.
  - apply (proj1 (proj2 (proj2 (proj2 (api_error_responses ServerPy Sample.world_404))))
             Sample.config (JStr "123") Sample.col_map).
    + unfold token_missing. simpl. discriminate.
    + reflexivity.
    + reflexivity.
    + reflexivity.
    + reflexivity.
  - apply (proj1 (proj2 (proj2 (proj2 (proj2 (proj2
             (api_error_responses ServerPy Sample.world_bad_json))))))
             Sample.config (JStr "123") Sample.col_map).
    + unfold token_missing. simpl. discriminate.
    + reflexivity.
    + reflexivity.
    + reflexivity.
    + reflexivity.
  - apply (proj1 (proj2 (proj2 (proj2 (proj2 (proj2 (proj2 (proj2
             (api_error_responses ServerPy Sample.world_bad_json))))))))).
    + reflexivity.
    + reflexivity.
    + discriminate.
  - apply (proj1 (proj2 (api_error_responses ServerPy Sample.world_deep_sheet))).
    reflexivity.
Defined.

(** A sheet of unexpected shape, here a list where the object should be,
    is answered with 500. *)
Example unexpected_shape_is_500 (v : variant) :
  (handle_api v {| environ_token := Some "secret";
                   config_file := ConfigLoaded Sample.config;
                   upstream := λ _, UpSheet (JArr []);
                   encoder := λ _, DumpsOk;
                   opened := [] |}).1
  = send_error 500 "Internal error: 'list' object has no attribute 'get'".
Proof. destruct v; reflexivity. Qed.

(** The body the specification gives for a 404 of the remote API. *)
Example upstream_404_body (v : variant) :
  (handle_api v Sample.world_404).1
  = send_error 502 "Smartsheet API returned 404: Not Found".
Proof. destruct v; reflexivity. Qed.

(** A sheet nested too deep for the decoder is answered with 503 although
    a token is set: the [RecursionError] is a [RuntimeError]. *)
Example deep_sheet_is_503 (v : variant) :
  ¬ token_missing Sample.world_deep_sheet ∧
  (handle_api v Sample.world_deep_sheet).1
  = send_error 503
      "maximum recursion depth exceeded while decoding a JSON array from a unicode string".
Proof. split; [discriminate | destruct v; reflexivity]. Qed.

(** ** More on the summary and the output records *)

Lemma py_count_nonneg (l : list json) (s : string) : 0 <= py_count l s.
Proof.
  induction l as [|x l IH]; simpl; [lia|].
  destruct (py_eq_str x s); lia.
Qed.

Lemma py_count_three (l : list json) (a b c : string) :
  a ≠ b → a ≠ c → b ≠ c →
  py_count l a + py_count l b + py_count l c <= py_len l.
Proof.
  intros Hab Hac Hbc. unfold py_len.
  induction l as [|x l IH]; simpl length; [simpl; lia|].
  rewrite Nat2Z.inj_succ. simpl py_count.
  assert (Hone : (if py_eq_str x a then 1 else 0)
                 + (if py_eq_str x b then 1 else 0)
                 + (if py_eq_str x c then 1 else 0) <= 1).
  { destruct x; simpl; try lia.
    destruct (String.eqb_spec s a), (String.eqb_spec s b), (String.eqb_spec s c);
      subst; try contradiction; lia. }
  lia.
Qed.

(** The three counters are counts of different labels, so together they
    never exceed the total. *)
Theorem summary_counters_bounded
    (v : variant) (sheet col_map : json) (p : payload) :
  transform v sheet col_map = Ok p →
  0 <= in_production (summary p) ∧
  0 <= poc_done (summary p) ∧
  0 <= poc_in_progress (summary p) ∧
  in_production (summary p) + poc_done (summary p) + poc_in_progress (summary p)
  <= total_initiatives (summary p).
Proof.
  intros H.
  destruct (transform_Ok_inv _ _ _ _ H) as (_ & _ & _ & _ & _ & _ & _ & Hs & _).
  rewrite Hs. unfold compute_summary. simpl.
  repeat split; try apply py_count_nonneg.
  replace (py_len (use_cases p)) with (py_len (statuses_of (use_cases p)))
    by (unfold py_len, statuses_of; rewrite length_map; reflexivity).
  apply py_count_three; discriminate.
Qed.

Lemma summary_counters_bounded_scenario :
  0 <= in_production (summary Sample.expected) ∧
  0 <= poc_done (summary Sample.expected) ∧
  0 <= poc_in_progress (summary Sample.expected) ∧
  in_production (summary Sample.expected) + poc_done (summary Sample.expected)
  + poc_in_progress (summary Sample.expected)
  <= total_initiatives (summary Sample.expected).
Proof.
  apply (summary_counters_bounded ServerPy Sample.sheet Sample.col_map).
  vm_compute. reflexivity.
Defined.

(** The output never has more records than the sheet has rows. *)
Theorem output_no_longer_than_rows
    (v : variant) (sheet col_map : json) (p : payload) (rows : list json) :
  transform v sheet col_map = Ok p →
  sheet_rows sheet = Ok rows →
  (length (use_cases p) <= length rows)%nat ∧
  total_initiatives (summary p) <= Z.of_nat (length rows).
Proof.
  intros H Hrows.
  destruct (transform_Ok_inv _ _ _ _ H)
    as (c2t & t2f & rows' & _ & _ & Hr & Hloop & Hs & _).
  rewrite Hrows in Hr. injection Hr as <-.
  destruct (rows_loop_records _ _ _ _ _ _ Hloop) as (recs & Hlen & _ & Hucs).
  simpl in Hucs.
  assert (Hle : (length (use_cases p) <= length rows)%nat).
  { rewrite Hucs, <- Hlen. apply List.filter_length_le. }
  split; [exact Hle|].
  rewrite Hs. unfold compute_summary, py_len. simpl. lia.
Qed.

Lemma output_no_longer_than_rows_scenario :
  (length (use_cases Sample.expected) <= length [Sample.row1; Sample.row2])%nat ∧
  total_initiatives (summary Sample.expected)
  <= Z.of_nat (length [Sample.row1; Sample.row2]).
Proof.
  apply (output_no_longer_than_rows ServerPy Sample.sheet Sample.col_map).
  - vm_compute. reflexivity.
  - reflexivity.
Defined.

(** Without a field [name] in the FieldMap no row is ever retained. *)
Theorem no_name_field_no_output
    (v : variant) (sheet col_map : json) (p : payload) :
  ¬ In "name" (field_map_keys col_map) →
  transform v sheet col_map = Ok p →
  use_cases p = [] ∧
  summary p = {| total_initiatives := 0; in_production := 0;
                 poc_done := 0; poc_in_progress := 0 |}.
Proof.
  intros Hno H.
  assert (Hempty : use_cases p = []).
  { destruct (use_cases p) as [|r rest] eqn:Hucs; [reflexivity|exfalso].
    assert (Hin : In r (use_cases p)) by (rewrite Hucs; simpl; auto).
    destruct (transform_records _ _ _ _ H) as (recs' & Hrecs & Hf).
    destruct (row_records_ok _ _ _ _ Hrecs) as (t2f & Ht & Hok).
    rewrite Hf in Hin. apply filter_In in Hin as [Hin Hname].
    unfold has_name in Hname.
    destruct (dict_get "name" r) as [x|] eqn:Hx; [|discriminate].
    apply dict_get_Some_key in Hx.
    destruct (Hok r Hin) as [Hkeys _].
    destruct (Hkeys _ Hx) as [Hid|[kt Hkt]]; [discriminate|].
    apply Hno. eapply title_to_field_fields; eauto. }
  split; [exact Hempty|].
  destruct (transform_Ok_inv _ _ _ _ H) as (_ & _ & _ & _ & _ & _ & _ & Hs & _).
  rewrite Hs, Hempty. reflexivity.
Qed.

Lemma no_name_field_no_output_sample :
  use_cases {| metadata_title := JStr "AI Use Cases";
               metadata_source := "Smartsheet (live)";
               metadata_last_updated := "live";
               summary := {| total_initiatives := 0; in_production := 0;
                             poc_done := 0; poc_in_progress := 0 |};
               use_cases := [] |} = [] ∧
  summary {| metadata_title := JStr "AI Use Cases";
             metadata_source := "Smartsheet (live)";
             metadata_last_updated := "live";
             summary := {| total_initiatives := 0; in_production := 0;
                           poc_done := 0; poc_in_progress := 0 |};
             use_cases := [] |}
  = {| total_initiatives := 0; in_production := 0;
       poc_done := 0; poc_in_progress := 0 |}.
Proof.
  apply (no_name_field_no_output ServerPy Sample.sheet
           (JObj [("status", JStr "Status")])).
  - simpl. intros [H|[]]. discriminate.
  - vm_compute. reflexivity.
Defined.

Lemma dict_set_NoDup (k : string) (x : json) (d : pydict) :
  NoDup (dict_keys d) → NoDup (dict_keys (dict_set k x d)).
Proof.
  unfold dict_keys. induction d as [|[k0 x0] d IH]; simpl; intros H.
  - apply NoDup_singleton.
  - apply NoDup_cons in H as [Hnot Hd].
    destruct (decide (k0 = k)) as [->|Hne]; simpl; apply NoDup_cons; split; auto.
    rewrite list_elem_of_In. intros Hin.
    apply (dict_keys_set k x d k0) in Hin as [->|Hin]; auto.
    apply Hnot, list_elem_of_In, Hin.
Qed.

Lemma dict_set_head (k : string) (x : json) (d : pydict) :
  (∃ y rest, d = ("id", y) :: rest) →
  ∃ y rest, dict_set k x d = ("id", y) :: rest.
Proof.
  intros (y & rest & ->). simpl.
  destruct (decide ("id" = k)); eauto.
Qed.

Lemma cells_loop_shape c2t t2f (cells : list json) :
  ∀ record record', cells_loop c2t t2f cells record = Ok record' →
    NoDup (dict_keys record) ∧ (∃ y rest, record = ("id", y) :: rest) →
    NoDup (dict_keys record') ∧ (∃ y rest, record' = ("id", y) :: rest).
Proof.
  induction cells as [|cell cells IH]; simpl; intros record record' H Hshape.
  - inv_ok. subst. exact Hshape.
  - inv_ok. apply (IH _ _ H).
    destruct (process_cell_cases _ _ _ _ _ Ha)
      as [->|(k & field & x & _ & _ & _ & _ & ->)]; [exact Hshape|].
    destruct Hshape as [Hnd Hhead].
    split; [apply dict_set_NoDup | apply dict_set_head]; assumption.
Qed.

(** Every output record is a dict proper: its keys are pairwise distinct
    and [id] comes first, whatever the cells wrote. *)
Theorem output_records_are_dicts
    (v : variant) (sheet col_map : json) (p : payload) (r : pydict) :
  transform v sheet col_map = Ok p →
  In r (use_cases p) →
  NoDup (dict_keys r) ∧ ∃ y rest, r = ("id", y) :: rest.
Proof.
  intros H Hin.
  destruct (transform_records _ _ _ _ H) as (recs & Hrecs & Hf).
  rewrite Hf in Hin. apply filter_In in Hin as [Hin _].
  destruct Hrecs as (c2t & t2f & rows & _ & _ & _ & Hlen & Hall).
  apply list_elem_of_In, list_elem_of_lookup in Hin as [i Hi].
  destruct (lookup_lt_is_Some_2 rows i) as [row Hrow].
  { rewrite <- Hlen. eapply lookup_lt_Some; eauto. }
  destruct (Hall i row Hrow) as (r' & Hr' & Hb).
  rewrite Hi in Hr'. injection Hr' as <-.
  unfold build_record in Hb. inv_ok.
  apply (cells_loop_shape _ _ _ _ _ Hb).
  split; [|eauto].
  simpl. apply NoDup_singleton.
Qed.

Lemma output_records_are_dicts_scenario :
  NoDup (dict_keys [("id", JInt 1); ("name", JStr "Chatbot");
                    ("status", JStr "In Production")]) ∧
  ∃ y rest,
    [("id", JInt 1); ("name", JStr "Chatbot"); ("status", JStr "In Production")]
    = ("id", y) :: rest.
Proof.
  apply (output_records_are_dicts ServerPy Sample.sheet Sample.col_map
           Sample.expected).
  - vm_compute. reflexivity.
  - simpl. auto.
Defined.

(** No field of an output record is ever null, false, zero or an empty
    list or dict: a value recorded under a key other than [id] is truthy
    or the empty string. *)
Theorem output_values_usable
    (v : variant) (sheet col_map : json) (p : payload)
    (r : pydict) (k : string) (x : json) :
  transform v sheet col_map = Ok p →
  In r (use_cases p) →
  dict_get k r = Some x →
  k ≠ "id" →
  truthy x = true ∨ x = JStr "".
Proof.
  intros H Hin Hk Hne.
  destruct (transform_records _ _ _ _ H) as (recs & Hrecs & Hf).
  destruct (row_records_ok _ _ _ _ Hrecs) as (t2f & _ & Hok).
  rewrite Hf in Hin. apply filter_In in Hin as [Hin _].
  destruct (Hok r Hin) as [_ Hvals].
  destruct (Hvals k x Hk) as [Hid|Hu]; [contradiction|exact Hu].
Qed.

Lemma output_values_usable_scenario :
  truthy (JStr "In Production") = true ∨ JStr "In Production" = JStr "".
Proof.
  apply (output_values_usable ServerPy Sample.sheet Sample.col_map
           Sample.expected
           [("id", JInt 1); ("name", JStr "Chatbot"); ("status", JStr "In Production")]
           "status").
  - vm_compute. reflexivity.
  - simpl. auto.
  - reflexivity.
  - discriminate.
Defined.

(** The metadata: the two labels are fixed, and the title is the sheet's
    [name] entry whenever the key is there, null or empty included; the
    default is used only when the key is absent. *)
Theorem metadata_of_output
    (v : variant) (sheet col_map : json) (p : payload) :
  transform v sheet col_map = Ok p →
  metadata_source p = "Smartsheet (live)" ∧
  metadata_last_updated p = "live" ∧
  ∃ d, sheet = JObj d ∧
       (∀ x, dict_get "name" d = Some x → metadata_title p = x) ∧
       (dict_get "name" d = None → metadata_title p = JStr "AI Use Cases").
Proof.
  intros H.
  destruct (transform_Ok_inv _ _ _ _ H) as (_ & _ & _ & _ & _ & _ & _ & _ & Ht & Hs & Hl).
  split; [exact Hs|]. split; [exact Hl|].
  destruct sheet; simpl in Ht; try discriminate.
  exists d. split; [reflexivity|]. injection Ht as <-.
  split; [intros x ->; reflexivity | intros ->; reflexivity].
Qed.

Lemma metadata_of_output_scenario :
  metadata_source Sample.expected = "Smartsheet (live)" ∧
  metadata_last_updated Sample.expected = "live" ∧
  ∃ d, Sample.sheet = JObj d ∧
       (∀ x, dict_get "name" d = Some x → metadata_title Sample.expected = x) ∧
       (dict_get "name" d = None →
        metadata_title Sample.expected = JStr "AI Use Cases").
Proof.
  apply (metadata_of_output ServerPy Sample.sheet Sample.col_map).
  vm_compute. reflexivity.
Defined.

(** A sheet whose [name] is null is titled null, not with the default. *)
Example null_name_is_kept (v : variant) :
  ∃ p, transform v (JObj [("name", JNull)]) Sample.col_map = Ok p ∧
       metadata_title p = JNull.
Proof. destruct v; eexists; split; vm_compute; reflexivity. Qed.

(** ** Cells within a row *)

Lemma cells_loop_keeps c2t t2f (field : string) (x : json) (cells : list json) :
  ∀ record record',
    dict_get field record = Some x →
    (∀ cell, In cell cells → cell_field c2t t2f cell ≠ Ok (Some field)) →
    cells_loop c2t t2f cells record = Ok record' →
    dict_get field record' = Some x.
Proof.
  induction cells as [|cell cells IH]; simpl; intros record record' Hget Hno H.
  - inv_ok. subst. exact Hget.
  - inv_ok. apply (IH a record'); auto.
    destruct (process_cell_cases _ _ _ _ _ Ha)
      as [->|(k & field' & y & _ & _ & Hf & _ & ->)]; [exact Hget|].
    rewrite dict_get_set_ne; [exact Hget|].
    intros ->. exact (Hno cell (or_introl eq_refl) Hf).
Qed.

(** When several cells of a row resolve to the same field, the last of
    them gives the value the record keeps. *)
Theorem last_cell_of_a_field_wins
    (c2t : gmap pykey json) (t2f : gmap pykey string) (idx : Z)
    (row cells_obj cell : json) (pre post : list json)
    (field : string) (x : json) (record : pydict) :
  py_get row "cells" (JArr []) = Ok cells_obj →
  py_iter cells_obj = Ok (pre ++ cell :: post) →
  cell_field c2t t2f cell = Ok (Some field) →
  field ≠ "" →
  cell_value cell = Ok x →
  (∀ cell', In cell' post → cell_field c2t t2f cell' ≠ Ok (Some field)) →
  build_record c2t t2f idx row = Ok record →
  dict_get field record = Some x.
Proof.
  intros Hrow Hiter Hf Hne Hx Hpost Hb.
  unfold build_record in Hb. rewrite Hrow in Hb. simpl in Hb.
  rewrite Hiter in Hb. simpl in Hb.
  clear Hrow Hiter. revert Hb. generalize [("id", JInt idx)].
  induction pre as [|c pre IH]; simpl; intros r0 Hb.
  - inv_ok. unfold process_cell in Ha. rewrite Hf in Ha. simpl in Ha.
    rewrite decide_False in Ha by exact Hne.
    rewrite Hx in Ha. simpl in Ha. inv_ok. subst a.
    apply (cells_loop_keeps c2t t2f field x post (dict_set field x r0) record);
      [apply dict_get_set_eq | exact Hpost | exact Hb].
  - inv_ok. apply (IH a). exact Hb.
Qed.

Lemma last_cell_of_a_field_wins_sample :
  dict_get "name" [("id", JInt 1); ("name", JStr "Second")]
  = Some (JStr "Second").
Proof.
  apply (last_cell_of_a_field_wins Sample.c2t Sample.t2f 1
           (JObj [("cells",
                   JArr [JObj [("columnId", JInt 1); ("value", JStr "First")];
                         JObj [("columnId", JInt 1); ("value", JStr "Second")]])])
           (JArr [JObj [("columnId", JInt 1); ("value", JStr "First")];
                  JObj [("columnId", JInt 1); ("value", JStr "Second")]])
           (JObj [("columnId", JInt 1); ("value", JStr "Second")])
           [JObj [("columnId", JInt 1); ("value", JStr "First")]] []
           "name" (JStr "Second")).
  - reflexivity.
  - reflexivity.
  - vm_compute. reflexivity.
  - discriminate.
  - reflexivity.
  - intros cell' [].
  - vm_compute. reflexivity.
Defined.

Lemma process_cell_skip c2t t2f (record : pydict) (cell : json)
    (field : option string) :
  cell_field c2t t2f cell = Ok field →
  field = None ∨ field = Some "" →
  process_cell c2t t2f record cell = Ok record.
Proof.
  intros Hf [->| ->]; unfold process_cell; rewrite Hf; reflexivity.
Qed.

Lemma cells_loop_skip c2t t2f (cell : json) (field : option string)
    (pre post : list json) :
  cell_field c2t t2f cell = Ok field →
  field = None ∨ field = Some "" →
  ∀ record,
    cells_loop c2t t2f (pre ++ cell :: post) record
    = cells_loop c2t t2f (pre ++ post) record.
Proof.
  intros Hf Hskip. induction pre as [|c pre IH]; simpl; intros record.
  - rewrite (process_cell_skip _ _ _ _ _ Hf Hskip). reflexivity.
  - destruct (process_cell c2t t2f record c) as [r|e]; simpl; auto.
Qed.

(** A cell whose column resolves to no field (an unknown column id, a
    title no field is mapped to, or a field with the empty name) leaves no
    trace: the row's record, or the row's failure, is the same without it. *)
Theorem unmapped_cell_is_ignored
    (c2t : gmap pykey json) (t2f : gmap pykey string) (idx : Z)
    (d d' : pydict) (cell : json) (pre post : list json)
    (field : option string) :
  dict_get "cells" d = Some (JArr (pre ++ cell :: post)) →
  dict_get "cells" d' = Some (JArr (pre ++ post)) →
  cell_field c2t t2f cell = Ok field →
  field = None ∨ field = Some "" →
  build_record c2t t2f idx (JObj d) = build_record c2t t2f idx (JObj d').
Proof.
  intros Hd Hd' Hf Hskip. unfold build_record. simpl.
  rewrite Hd, Hd'. simpl.
  apply (cells_loop_skip _ _ _ _ _ _ Hf Hskip).
Qed.

Lemma unmapped_cell_is_ignored_sample :
  build_record Sample.c2t Sample.t2f 1
    (JObj [("cells",
            JArr [JObj [("columnId", JInt 1); ("value", JStr "Chatbot")];
                  JObj [("columnId", JInt 99); ("value", JStr "stray")]])])
  = build_record Sample.c2t Sample.t2f 1
      (JObj [("cells",
              JArr [JObj [("columnId", JInt 1); ("value", JStr "Chatbot")]])]).
Proof.
  apply (unmapped_cell_is_ignored Sample.c2t Sample.t2f 1 _ _
           (JObj [("columnId", JInt 99); ("value", JStr "stray")])
           [JObj [("columnId", JInt 1); ("value", JStr "Chatbot")]] [] None).
  - reflexivity.
  - reflexivity.
  - vm_compute. reflexivity.
  - left. reflexivity.
Defined.

(** ** Well-formed input *)

Lemma py_hash_hashable (x : json) :
  hashable x = true → ∃ k, py_hash x = Ok k.
Proof. destruct x; simpl; intros H; try discriminate; eauto. Qed.

Lemma read_column_well_formed (v : variant) (col : json) :
  well_formed_column col = true →
  ∃ id title, read_column v col = Ok (id, title) ∧
              hashable id = true ∧ hashable title = true.
Proof.
  destruct col as [| | | | |d]; simpl; try discriminate.
  destruct (dict_get "id" d) as [id|] eqn:Hid; [|discriminate].
  destruct (dict_get "title" d) as [title|] eqn:Ht; [|discriminate].
  intros H. apply andb_true_iff in H as [Hi Hti].
  exists id, title. split; auto.
  destruct v; simpl; rewrite Hid, Ht; reflexivity.
Qed.

Lemma col_id_to_title_loop_well_formed (v : variant) (cols : list json) :
  forallb well_formed_column cols = true →
  ∀ tbl, map_Forall (λ _ x, hashable x = true) tbl →
    ∃ c2t, col_id_to_title_loop v cols tbl = Ok c2t ∧
           map_Forall (λ _ x, hashable x = true) c2t.
Proof.
  induction cols as [|col cols IH]; simpl; intros Hwf tbl Htbl; [eauto|].
  apply andb_true_iff in Hwf as [Hcol Hcols].
  destruct (read_column_well_formed v col Hcol) as (id & title & Hr & Hi & Ht).
  destruct (py_hash_hashable id Hi) as [k Hk].
  rewrite Hr. simpl. rewrite Hk. simpl.
  apply (IH Hcols). apply map_Forall_insert_2; auto.
Qed.

Lemma title_to_field_loop_well_formed (items : pydict) :
  forallb (λ kv, hashable kv.2) items = true →
  ∀ tbl, ∃ t2f, title_to_field_loop items tbl = Ok t2f.
Proof.
  induction items as [|[k x] items IH]; simpl; intros Hwf tbl; [eauto|].
  apply andb_true_iff in Hwf as [Hx Hitems].
  destruct (py_hash_hashable x Hx) as [key Hkey].
  rewrite Hkey. simpl. apply (IH Hitems).
Qed.

Lemma process_cell_well_formed c2t t2f (record : pydict) (cell : json) :
  map_Forall (λ _ x, hashable x = true) c2t →
  well_formed_cell cell = true →
  ∃ record', process_cell c2t t2f record cell = Ok record'.
Proof.
  intros Hc2t Hwf. destruct cell as [| | | | |d]; simpl in Hwf; try discriminate.
  destruct (py_hash_hashable _ Hwf) as [k Hk].
  assert (Ht : hashable (default (JStr "") (c2t !! k)) = true).
  { destruct (c2t !! k) as [t|] eqn:Hl; simpl; [|reflexivity].
    exact (Hc2t k t Hl). }
  destruct (py_hash_hashable _ Ht) as [kt Hkt].
  unfold process_cell, cell_field. simpl. rewrite Hk. simpl. rewrite Hkt. simpl.
  destruct (t2f !! kt) as [field|]; [|eauto].
  destruct (decide (field = "")); [eauto|].
  rewrite cell_value_dict. simpl. eauto.
Qed.

Lemma cells_loop_well_formed c2t t2f (cells : list json) :
  map_Forall (λ _ x, hashable x = true) c2t →
  forallb well_formed_cell cells = true →
  ∀ record, ∃ record', cells_loop c2t t2f cells record = Ok record'.
Proof.
  intros Hc2t. induction cells as [|cell cells IH]; simpl; intros Hwf record; [eauto|].
  apply andb_true_iff in Hwf as [Hcell Hcells].
  destruct (process_cell_well_formed c2t t2f record cell Hc2t Hcell) as [r Hr].
  rewrite Hr. simpl. apply (IH Hcells).
Qed.

Lemma build_record_well_formed c2t t2f (idx : Z) (row : json) :
  map_Forall (λ _ x, hashable x = true) c2t →
  well_formed_row row = true →
  ∃ record, build_record c2t t2f idx row = Ok record.
Proof.
  intros Hc2t Hwf. destruct row as [| | | | |d]; simpl in Hwf; try discriminate.
  unfold build_record. simpl.
  destruct (default (JArr []) (dict_get "cells" d)) as [| | | |cells|];
    try discriminate.
  simpl. apply cells_loop_well_formed; auto.
Qed.

Lemma rows_loop_well_formed c2t t2f (rows : list json) :
  map_Forall (λ _ x, hashable x = true) c2t →
  forallb well_formed_row rows = true →
  ∀ idx acc, ∃ ucs, rows_loop c2t t2f idx rows acc = Ok ucs.
Proof.
  intros Hc2t. induction rows as [|row rows IH]; simpl; intros Hwf idx acc; [eauto|].
  apply andb_true_iff in Hwf as [Hrow Hrows].
  destruct (build_record_well_formed c2t t2f idx row Hc2t Hrow) as [r Hr].
  rewrite Hr. simpl. apply (IH Hrows).
Qed.

(** On a sheet and a FieldMap of the expected shape the transformation
    never raises: dicts where dicts are expected, lists of columns, rows and
    cells, and no list or dict as an id or a title. *)
Theorem well_formed_input_never_raises (v : variant) (sheet col_map : json) :
  well_formed_sheet sheet = true →
  well_formed_col_map col_map = true →
  ∃ p, transform v sheet col_map = Ok p.
Proof.
  intros Hs Hc.
  destruct sheet as [| | | | |d]; simpl in Hs; try discriminate.
  destruct col_map as [| | | | |items]; simpl in Hc; try discriminate.
  apply andb_true_iff in Hs as [Hcols Hrows].
  unfold transform, col_id_to_title, sheet_columns, title_to_field, sheet_rows.
  simpl.
  destruct (default (JArr []) (dict_get "columns" d)) as [| | | |cols|];
    try discriminate.
  destruct (default (JArr []) (dict_get "rows" d)) as [| | | |rows|];
    try discriminate.
  simpl.
  destruct (col_id_to_title_loop_well_formed v cols Hcols ∅) as (c2t & Hc2t & Hok).
  { apply map_Forall_empty. }
  rewrite Hc2t. simpl.
  destruct (title_to_field_loop_well_formed items Hc ∅) as [t2f Ht2f].
  rewrite Ht2f. simpl.
  destruct (rows_loop_well_formed c2t t2f rows Hok Hrows 1 []) as [ucs Hucs].
  rewrite Hucs. simpl. eauto.
Qed.

Lemma well_formed_input_never_raises_scenario :
  ∃ p, transform UseCasesPy Sample.sheet_gap Sample.col_map = Ok p.
Proof.
  apply (well_formed_input_never_raises UseCasesPy Sample.sheet_gap Sample.col_map);
    reflexivity.
Defined.

(** ** The two copies of the code *)

Lemma read_column_raise_variant (col : json) (e : exn) :
  read_column ServerPy col = Raise e →
  ∃ e', read_column UseCasesPy col = Raise e' ∧
        (e' = e ∨ (e = KeyError "title" ∧ e' = KeyError "id")).
Proof.
  destruct col as [| | | | |d]; simpl; intros H;
    try (injection H as <-; eexists; split; [reflexivity | left; reflexivity]).
  destruct (dict_get "title" d) as [t|], (dict_get "id" d) as [i|];
    simpl in *; try discriminate; injection H as <-;
    eexists; (split; [reflexivity|]); auto.
Qed.

Lemma col_id_to_title_loop_raise_variant (cols : list json) :
  ∀ tbl e, col_id_to_title_loop ServerPy cols tbl = Raise e →
    ∃ e', col_id_to_title_loop UseCasesPy cols tbl = Raise e' ∧
          (e' = e ∨ (e = KeyError "title" ∧ e' = KeyError "id")).
Proof.
  induction cols as [|col cols IH]; intros tbl e H; [discriminate|].
  cbn [col_id_to_title_loop] in *.
  apply bind_Raise_inv in H as [H|(it & Hr & H)].
  - destruct (read_column_raise_variant col e H) as (e' & He' & Hrel).
    exists e'. rewrite He'. auto.
  - rewrite (read_column_variant ServerPy UseCasesPy col it Hr).
    cbn [mbind result_bind].
    apply bind_Raise_inv in H as [H|(k & Hk & H)].
    + exists e. rewrite H. auto.
    + rewrite Hk. cbn [mbind result_bind]. apply IH. exact H.
Qed.

(** The two copies agree: they succeed on the same inputs with the same
    payload, and where [server.py] raises, [api/use-cases.py] raises the same
    exception, except that for a column lacking both keys the one reports
    the missing [title] and the other the missing [id]. *)
Theorem copies_agree (sheet col_map : json) :
  (∀ p, transform ServerPy sheet col_map = Ok p ↔
        transform UseCasesPy sheet col_map = Ok p) ∧
  (∀ e, transform ServerPy sheet col_map = Raise e →
        ∃ e', transform UseCasesPy sheet col_map = Raise e' ∧
              (e' = e ∨ (e = KeyError "title" ∧ e' = KeyError "id"))).
Proof.
  split.
  - intros p. split; apply transform_variant.
  - intros e H. unfold transform in *.
    destruct (col_id_to_title ServerPy sheet) as [c2t|e0] eqn:Hc; simpl in H.
    + rewrite (col_id_to_title_variant ServerPy UseCasesPy sheet c2t Hc).
      exists e. split; auto.
    + injection H as <-. unfold col_id_to_title in *.
      destruct (sheet_columns sheet) as [cols|e1]; simpl in *.
      * destruct (col_id_to_title_loop_raise_variant cols ∅ e0 Hc)
          as (e' & He' & Hrel).
        exists e'. rewrite He'. auto.
      * exists e1. injection Hc as <-. auto.
Qed.

Lemma copies_agree_sample :
  ∃ e', transform UseCasesPy (JObj [("columns", JArr [JObj []])]) Sample.col_map
        = Raise e' ∧
        (e' = KeyError "title" ∨
         (KeyError "title" = KeyError "title" ∧ e' = KeyError "id")).
Proof.
  apply (proj2 (copies_agree (JObj [("columns", JArr [JObj []])]) Sample.col_map)
           (KeyError "title")).
  reflexivity.
Defined.

(** ** More on white space *)

Lemma lstrip_fixed (s : string) :
  match s with EmptyString => True | String c _ => is_space c = false end →
  lstrip s = s.
Proof. destruct s as [|c s]; simpl; [reflexivity|]. intros ->. reflexivity. Qed.

Lemma lstrip_starts (s : string) :
  match lstrip s with EmptyString => True | String c _ => is_space c = false end.
Proof.
  induction s as [|c s IH]; simpl; [exact I|].
  destruct (is_space c) eqn:Hc; [exact IH | exact Hc].
Qed.

Lemma rstrip_starts (s : string) :
  match s with EmptyString => True | String c _ => is_space c = false end →
  match rstrip s with EmptyString => True | String c _ => is_space c = false end.
Proof.
  destruct s as [|c s]; simpl; [auto|]. intros Hc.
  destruct (rstrip s); [rewrite Hc|]; exact Hc.
Qed.

Lemma rstrip_idempotent (s : string) : rstrip (rstrip s) = rstrip s.
Proof.
  induction s as [|c s IH]; simpl; [reflexivity|].
  destruct (rstrip s) as [|c' r] eqn:Hr.
  - destruct (is_space c) eqn:Hc; simpl; [reflexivity | rewrite Hc; reflexivity].
  - change (rstrip (String c (String c' r))) with
      (match rstrip (String c' r) with
       | EmptyString => if is_space c then EmptyString else String c EmptyString
       | String a b => String c (String a b)
       end).
    rewrite IH. reflexivity.
Qed.

(** What [strip] returns has no white space at either end. *)
Lemma strip_stripped (s : string) : stripped (strip s).
Proof.
  unfold stripped, strip. split.
  - apply lstrip_fixed, rstrip_starts, lstrip_starts.
  - apply rstrip_idempotent.
Qed.

Lemma stripped_strip (s : string) : stripped s → strip s = s.
Proof. intros [Hl Hr]. unfold strip. rewrite Hl. exact Hr. Qed.

Lemma stripped_not_blank (s : string) : stripped s → s ≠ "" → blank s = false.
Proof.
  intros [_ Hr] Hne. destruct (blank s) eqn:Hb; [|reflexivity].
  apply rstrip_empty in Hb. rewrite Hr in Hb. contradiction.
Qed.

(** ** The call of [urlopen] *)

Lemma api_attempt_world (v : variant) (w : world) :
  (api_attempt v w).2 = (fetch_smartsheet_data v w).2.
Proof.
  unfold api_attempt. destruct (fetch_smartsheet_data v w) as [[p|e] w'];
    reflexivity.
Qed.

Lemma handle_api_world (v : variant) (w : world) :
  (handle_api v w).2 = (fetch_smartsheet_data v w).2.
Proof.
  rewrite <- api_attempt_world. unfold handle_api.
  destruct (api_attempt v w) as [[text|e] w']; reflexivity.
Qed.

(** Without a token, a loaded configuration or one of its two keys, the
    fetch returns before it calls [urlopen]. *)
Lemma fetch_no_call (v : variant) (w : world) :
  token_missing w ∨
  (∀ config, config_file w ≠ ConfigLoaded config) ∨
  (∃ config, config_file w = ConfigLoaded config ∧
             ∀ sheet_id col_map,
               ¬ (py_getitem config "sheet_id" = Ok sheet_id ∧
                  py_getitem config "column_map" = Ok col_map)) →
  (fetch_smartsheet_data v w).2 = w.
Proof.
  intros H. fetch_cases w; try reflexivity; exfalso;
    destruct H as [Hm|[Hn|(config' & Hc' & Hk)]];
    try contradiction; try (eapply Hn; reflexivity);
    injection Hc' as <-; eapply Hk; eauto.
Qed.

(** With all three it calls [urlopen] once, whatever the call comes to. *)
Lemma fetch_one_call (v : variant) (w : world)
    (token : string) (config sheet_id col_map : json) :
  environ_token w = Some token →
  strip token ≠ "" →
  config_file w = ConfigLoaded config →
  py_getitem config "sheet_id" = Ok sheet_id →
  py_getitem config "column_map" = Ok col_map →
  opened (fetch_smartsheet_data v w).2
  = opened w ++ [build_request (strip token) sheet_id].
Proof.
  intros Ht Hne Hc Hs Hcm.
  unfold fetch_smartsheet_data, load_smartsheet_config, urlopen.
  rewrite Ht. simpl. rewrite decide_False by exact Hne.
  rewrite Hc, Hs, Hcm.
  destruct (upstream w (build_request (strip token) sheet_id)); reflexivity.
Qed.

(** Handling a request calls [urlopen] at most once.  It does not call it
    when the token is missing, the configuration is not loaded or one of
    its two keys is absent, and then leaves the world as it was.  Otherwise
    it calls it exactly once, whatever the call comes to: for the
    configured sheet id, with ["Bearer "] and the token stripped of
    surrounding white space as the [Authorization] header. *)
Theorem request_discipline
    (v : variant) (w w' : world) (resp : response) :
  handle_api v w = (resp, w') →
  (token_missing w ∨
   (∀ config, config_file w ≠ ConfigLoaded config) ∨
   (∃ config, config_file w = ConfigLoaded config ∧
              ∀ sheet_id col_map,
                ¬ (py_getitem config "sheet_id" = Ok sheet_id ∧
                   py_getitem config "column_map" = Ok col_map)) →
   w' = w) ∧
  (∀ token config sheet_id col_map,
     environ_token w = Some token →
     strip token ≠ "" →
     config_file w = ConfigLoaded config →
     py_getitem config "sheet_id" = Ok sheet_id →
     py_getitem config "column_map" = Ok col_map →
     opened w' = opened w ++ [build_request (strip token) sheet_id] ∧
     stripped (strip token) ∧
     req_authorization (build_request (strip token) sheet_id)
     = "Bearer " +:+ strip token).
Proof.
  intros H.
  assert (Hw : w' = (fetch_smartsheet_data v w).2).
  { rewrite <- handle_api_world, H. reflexivity. }
  subst w'. split.
  - apply fetch_no_call.
  - intros token config sheet_id col_map Ht Hne Hc Hs Hcm.
    split; [apply (fetch_one_call v w token config sheet_id col_map); assumption|].
    split; [apply strip_stripped | reflexivity].
Qed.

Lemma request_discipline_sample :
  (handle_api UseCasesPy Sample.world_no_token).2 = Sample.world_no_token ∧
  (opened (handle_api ServerPy Sample.world_404).2
   = opened Sample.world_404 ++ [build_request (strip "secret") (JStr "123")] ∧
   stripped (strip "secret") ∧
   req_authorization (build_request (strip "secret") (JStr "123"))
   = "Bearer " +:+ strip "secret").
Proof.
  split.
  - apply (proj1 (request_discipline UseCasesPy Sample.world_no_token
                    (handle_api UseCasesPy Sample.world_no_token).2
                    (handle_api UseCasesPy Sample.world_no_token).1 eq_refl)).
    left. reflexivity.
  - apply (proj2 (request_discipline ServerPy Sample.world_404
                    (handle_api ServerPy Sample.world_404).2
                    (handle_api ServerPy Sample.world_404).1 eq_refl)
             "secret" Sample.config (JStr "123") Sample.col_map).
    + reflexivity.
    + discriminate.
    + reflexivity.
    + reflexivity.
    + reflexivity.
Defined.

(** In the scenario the call carries the token without its blanks. *)
Example request_of_scenario (v : variant) :
  opened (handle_api v Sample.world_ok).2
  = [{| req_sheet_id := JStr "123";
        req_authorization := "Bearer secret";
        req_accept := "application/json" |}].
Proof. destruct v; reflexivity. Qed.

(** A configuration without [sheet_id], or with it but without
    [column_map], is answered with 500 naming the missing key, and
    [urlopen] is not called; [sheet_id] is looked up first. *)
Theorem config_missing_key (v : variant) (w : world) (d : pydict) (key : string) :
  ¬ token_missing w →
  config_file w = ConfigLoaded (JObj d) →
  (key = "sheet_id" ∧ dict_get "sheet_id" d = None) ∨
  (key = "column_map" ∧ dict_get "sheet_id" d ≠ None ∧
   dict_get "column_map" d = None) →
  handle_api v w = (send_error 500 ("Internal error: '" +:+ key +:+ "'"), w).
Proof.
  intros Hm Hc Hkey.
  unfold handle_api, api_attempt, fetch_smartsheet_data, load_smartsheet_config.
  rewrite decide_False by (rewrite token_missing_strip; exact Hm).
  rewrite Hc. simpl.
  destruct Hkey as [[-> Hs]|(-> & Hs & Hcm)].
  - rewrite Hs. reflexivity.
  - destruct (dict_get "sheet_id" d); [|contradiction].
    rewrite Hcm. reflexivity.
Qed.

Lemma config_missing_key_sample :
  handle_api ServerPy
    {| environ_token := Some "secret";
       config_file := ConfigLoaded (JObj [("sheet_id", JStr "123")]);
       upstream := λ _, UpSheet Sample.sheet;
       encoder := λ _, DumpsOk;
       opened := [] |}
  = (send_error 500 ("Internal error: '" +:+ "column_map" +:+ "'"),
     {| environ_token := Some "secret";
        config_file := ConfigLoaded (JObj [("sheet_id", JStr "123")]);
        upstream := λ _, UpSheet Sample.sheet;
        encoder := λ _, DumpsOk;
        opened := [] |}).
Proof.
  apply (config_missing_key ServerPy
           {| environ_token := Some "secret";
              config_file := ConfigLoaded (JObj [("sheet_id", JStr "123")]);
              upstream := λ _, UpSheet Sample.sheet;
              encoder := λ _, DumpsOk;
              opened := [] |}
           [("sheet_id", JStr "123")] "column_map").
  - unfold token_missing. simpl. discriminate.
  - reflexivity.
  - right. split; [reflexivity|]. split; [discriminate | reflexivity].
Defined.

(** ** [load_dotenv] *)

Lemma setenv_cases (key value : string) (environ : environment) :
  setenv key value environ
  = (Raise (ValueError "embedded null byte"), environ) ∧
    has_nul key || has_nul value = true
  ∨ setenv key value environ = (Ok (), <[key := value]> environ) ∧
    has_nul key = false ∧ has_nul value = false.
Proof.
  unfold setenv. destruct (has_nul key) eqn:Hk, (has_nul value) eqn:Hv; simpl; auto.
Qed.

(** What one line does: nothing, or one new variable. *)
Lemma dotenv_line_cases (line : string) (environ : environment) :
  (dotenv_line line environ).2 = environ ∨
  ∃ key value,
    dotenv_entry line = Some (key, value) ∧
    key ≠ "" ∧ environ !! key = None ∧
    has_nul key = false ∧ has_nul value = false ∧
    dotenv_line line environ = (Ok (), <[key := value]> environ).
Proof.
  unfold dotenv_line.
  destruct (dotenv_entry line) as [[key value]|]; [|left; reflexivity].
  destruct (bool_decide (key ≠ "")) eqn:Hk; simpl; [|left; reflexivity].
  destruct (bool_decide (environ !! key = None)) eqn:He; simpl; [|left; reflexivity].
  apply bool_decide_eq_true in Hk, He.
  destruct (setenv_cases key value environ) as [[-> _]|(-> & Hnk & Hnv)];
    [left; reflexivity|].
  right. exists key, value. auto 10.
Qed.

Lemma dotenv_line_keeps (line : string) (environ : environment)
    (k x : string) :
  environ !! k = Some x → (dotenv_line line environ).2 !! k = Some x.
Proof.
  intros Hk.
  destruct (dotenv_line_cases line environ)
    as [->|(key & value & _ & _ & Hnone & _ & _ & ->)]; [exact Hk|].
  simpl. rewrite lookup_insert_ne; [exact Hk|].
  intros ->. rewrite Hk in Hnone. discriminate.
Qed.

Lemma dotenv_loop_keeps (lines : list string) :
  ∀ (environ : environment) (k x : string),
    environ !! k = Some x → (dotenv_loop lines environ).2 !! k = Some x.
Proof.
  induction lines as [|line lines IH]; simpl; intros environ k x Hk; [exact Hk|].
  pose proof (dotenv_line_keeps line environ k x Hk) as Hl.
  destruct (dotenv_line line environ) as [[[]|e] environ']; simpl in *; auto.
Qed.

(** [load_dotenv] never overrides a variable that is already set, whether
    it was in the environment or was set by an earlier line of the file,
    and whether or not the load runs to the end. *)
Theorem load_dotenv_never_overrides
    (file : dotenv_file) (environ : environment) (k x : string) :
  environ !! k = Some x →
  (load_dotenv file environ).2 !! k = Some x.
Proof.
  intros Hk. destruct file as [|msg|lines]; simpl; auto.
  apply dotenv_loop_keeps. exact Hk.
Qed.

Lemma load_dotenv_never_overrides_sample :
  (load_dotenv (DotenvLines ["SMARTSHEET_API_TOKEN=from-file"; "PORT=9"])
     (<["SMARTSHEET_API_TOKEN" := "from-shell"]> ∅)).2
  !! "SMARTSHEET_API_TOKEN" = Some "from-shell".
Proof.
  apply (load_dotenv_never_overrides
           (DotenvLines ["SMARTSHEET_API_TOKEN=from-file"; "PORT=9"])
           (<["SMARTSHEET_API_TOKEN" := "from-shell"]> ∅)
           "SMARTSHEET_API_TOKEN" "from-shell").
  apply lookup_insert_eq.
Defined.

Lemma dotenv_loop_unset (lines : list string) (key : string) :
  (∀ line k x, In line lines → dotenv_entry line = Some (k, x) → k ≠ key) →
  ∀ environ : environment,
    environ !! key = None → (dotenv_loop lines environ).2 !! key = None.
Proof.
  induction lines as [|line lines IH]; simpl; intros Hno environ Hk; [exact Hk|].
  assert (Hl : (dotenv_line line environ).2 !! key = None).
  { destruct (dotenv_line_cases line environ)
      as [->|(k & x & He & _ & _ & _ & _ & ->)]; [exact Hk|].
    simpl. rewrite lookup_insert_ne; [exact Hk|].
    apply (Hno line k x); auto. }
  destruct (dotenv_line line environ) as [[[]|e] environ']; simpl in *;
    [|exact Hl].
  apply IH; [|exact Hl]. intros l k x Hin. apply Hno. right. exact Hin.
Qed.

Lemma dotenv_loop_app_ok (pre post : list string) :
  ∀ environ : environment,
    (dotenv_loop (pre ++ post) environ).1 = Ok () →
    (dotenv_loop pre environ).1 = Ok () ∧
    dotenv_loop (pre ++ post) environ
    = dotenv_loop post (dotenv_loop pre environ).2.
Proof.
  induction pre as [|line pre IH]; simpl; intros environ H; [auto|].
  destruct (dotenv_line line environ) as [[[]|e] environ']; simpl in *; auto.
  discriminate.
Qed.

(** For a variable not yet set, the first line of the file that assigns it
    decides its value: later assignments of the same name change nothing. *)
Theorem first_assignment_wins
    (pre post : list string) (line key value : string)
    (environ : environment) :
  environ !! key = None →
  (∀ l k x, In l pre → dotenv_entry l = Some (k, x) → k ≠ key) →
  dotenv_entry line = Some (key, value) →
  key ≠ "" →
  (load_dotenv (DotenvLines (pre ++ line :: post)) environ).1 = Ok () →
  (load_dotenv (DotenvLines (pre ++ line :: post)) environ).2 !! key
  = Some value.
Proof.
  intros Hk Hpre He Hne Hok. simpl in *.
  destruct (dotenv_loop_app_ok pre (line :: post) environ Hok) as [_ Happ].
  rewrite Happ in Hok |- *. clear Happ.
  pose proof (dotenv_loop_unset pre key Hpre environ Hk) as Hunset.
  revert Hok Hunset. generalize (dotenv_loop pre environ).2. intros env1 Hok Hunset.
  simpl in *.
  destruct (dotenv_line_cases line env1)
    as [Hsame|(k & x & He' & _ & _ & _ & _ & Hset)].
  - exfalso. revert Hsame Hok. unfold dotenv_line. rewrite He.
    rewrite bool_decide_eq_true_2 by exact Hne.
    rewrite bool_decide_eq_true_2 by exact Hunset. simpl.
    destruct (setenv_cases key value env1) as [[-> _]|(-> & _ & _)]; simpl.
    + intros _ Hd. discriminate.
    + intros Heq _.
      assert (Hl : (<[key:=value]> env1 : environment) !! key = Some value)
        by apply lookup_insert_eq.
      rewrite Heq, Hunset in Hl. discriminate.
  - rewrite He in He'. injection He' as <- <-.
    rewrite Hset. apply dotenv_loop_keeps. apply lookup_insert_eq.
Qed.

Lemma first_assignment_wins_sample :
  (load_dotenv (DotenvLines (["# local settings"] ++ "PORT=1" :: ["PORT=2"])) ∅).2
  !! "PORT" = Some "1".
Proof.
  apply (first_assignment_wins ["# local settings"] ["PORT=2"] "PORT=1" "PORT" "1" ∅).
  - apply lookup_empty.
  - intros l k x [<-|[]] H. vm_compute in H. discriminate.
  - vm_compute. reflexivity.
  - discriminate.
  - vm_compute. reflexivity.
Defined.

Lemma dotenv_loop_skip (line : string) (pre post : list string) :
  dotenv_entry line = None →
  ∀ environ : environment,
    dotenv_loop (pre ++ line :: post) environ = dotenv_loop (pre ++ post) environ.
Proof.
  intros He. induction pre as [|l pre IH]; simpl; intros environ.
  - unfold dotenv_line. rewrite He. reflexivity.
  - destruct (dotenv_line l environ) as [[[]|e] environ']; auto.
Qed.

(** Blank lines and comment lines are ignored wherever they stand: a line
    that is white space only, or whose first character after leading white
    space is ["#"], can be removed without changing what the load does. *)
Theorem blank_and_comment_lines_ignored
    (line : string) (pre post : list string) (environ : environment) :
  blank line = true ∨ String.prefix "#" (strip line) = true →
  load_dotenv (DotenvLines (pre ++ line :: post)) environ
  = load_dotenv (DotenvLines (pre ++ post)) environ.
Proof.
  intros H. simpl. apply dotenv_loop_skip. unfold dotenv_entry.
  destruct H as [Hb|Hc].
  - apply strip_empty in Hb. rewrite Hb. reflexivity.
  - rewrite Hc, orb_true_r. reflexivity.
Qed.

Lemma blank_and_comment_lines_ignored_sample :
  load_dotenv (DotenvLines (["A=1"] ++ "   # note" :: ["B=2"])) ∅
  = load_dotenv (DotenvLines (["A=1"] ++ ["B=2"])) ∅.
Proof.
  apply (blank_and_comment_lines_ignored "   # note" ["A=1"] ["B=2"] ∅).
  right. reflexivity.
Defined.

Lemma no_equals_lstrip (s : string) : no_equals s = true → no_equals (lstrip s) = true.
Proof.
  induction s as [|c s IH]; simpl; [auto|]. intros H.
  apply andb_true_iff in H as [Hc Hs].
  destruct (is_space c); [auto|]. simpl. rewrite Hc, Hs. reflexivity.
Qed.

Lemma no_equals_rstrip (s : string) : no_equals s = true → no_equals (rstrip s) = true.
Proof.
  induction s as [|c s IH]; simpl; [auto|]. intros H.
  apply andb_true_iff in H as [Hc Hs]. specialize (IH Hs).
  destruct (rstrip s) as [|c' r].
  - destruct (is_space c); simpl; [reflexivity|]. rewrite Hc. reflexivity.
  - change (no_equals (String c (String c' r)))
      with (negb (Ascii.eqb c "=") && no_equals (String c' r)).
    rewrite Hc, IH. reflexivity.
Qed.

Lemma no_equals_partition (s : string) : no_equals (partition_eq s).1 = true.
Proof.
  induction s as [|c s IH]; simpl; [reflexivity|].
  destruct (Ascii.eqb c "=") eqn:Hc; simpl; [reflexivity|].
  rewrite Hc, IH. reflexivity.
Qed.

(** The name and the value a line assigns are stripped, and the name has
    no ["="]. *)
Lemma dotenv_entry_shape (line key value : string) :
  dotenv_entry line = Some (key, value) →
  stripped key ∧ stripped value ∧ no_equals key = true.
Proof.
  unfold dotenv_entry.
  destruct (bool_decide (strip line = "") || String.prefix "#" (strip line));
    [discriminate|].
  intros [= <- <-].
  split; [apply strip_stripped|]. split; [apply strip_stripped|].
  unfold strip. apply no_equals_rstrip, no_equals_lstrip, no_equals_partition.
Qed.

Lemma dotenv_loop_new (lines : list string) :
  ∀ (environ : environment) (k x : string),
    (dotenv_loop lines environ).2 !! k = Some x →
    environ !! k = None →
    ∃ line, In line lines ∧ dotenv_entry line = Some (k, x) ∧
            k ≠ "" ∧ has_nul k = false ∧ has_nul x = false.
Proof.
  induction lines as [|line lines IH]; simpl; intros environ k x Hk Hnone.
  - rewrite Hnone in Hk. discriminate.
  - assert (Hstep : (dotenv_line line environ).2 !! k = None ∨
                    (dotenv_line line environ).2 !! k = Some x ∧
                    dotenv_entry line = Some (k, x) ∧
                    k ≠ "" ∧ has_nul k = false ∧ has_nul x = false ∨
                    ∃ y, (dotenv_line line environ).2 !! k = Some y ∧ y ≠ x ∧
                         ∀ ls, (dotenv_loop ls (dotenv_line line environ).2).2 !! k
                               = Some y).
    { destruct (dotenv_line_cases line environ)
        as [->|(key & value & He & Hne & _ & Hnk & Hnv & ->)]; [auto|].
      simpl. destruct (decide (key = k)) as [->|Hd].
      - rewrite lookup_insert_eq.
        destruct (decide (value = x)) as [->|Hx]; [right; left; auto 10|].
        right. right. exists value. split; [reflexivity|]. split; [exact Hx|].
        intros ls. apply dotenv_loop_keeps, lookup_insert_eq.
      - left. rewrite lookup_insert_ne; auto. }
    destruct (dotenv_line line environ) as [[[]|e] environ']; simpl in *.
    + destruct Hstep as [Hn|[(_ & He & Hrest)|(y & _ & Hy & Hall)]].
      * destruct (IH _ _ _ Hk Hn) as (l & Hin & Hl). exists l. auto.
      * exists line. auto.
      * rewrite (Hall lines) in Hk. injection Hk as ->. contradiction.
    + destruct Hstep as [Hn|[(_ & He & Hrest)|(y & Hy' & Hy & _)]].
      * rewrite Hn in Hk. discriminate.
      * exists line. auto.
      * rewrite Hy' in Hk. injection Hk as ->. contradiction.
Qed.

(** Every variable [load_dotenv] adds comes from a line of the file and
    has a non-empty name without ["="], and neither the name nor the value
    has white space at its ends or a NUL. *)
Theorem loaded_variables_are_clean
    (lines : list string) (environ : environment) (k x : string) :
  environ !! k = None →
  (load_dotenv (DotenvLines lines) environ).2 !! k = Some x →
  k ≠ "" ∧ stripped k ∧ stripped x ∧ no_equals k = true ∧
  has_nul k = false ∧ has_nul x = false ∧
  ∃ line, In line lines ∧ dotenv_entry line = Some (k, x).
Proof.
  intros Hnone Hk. simpl in Hk.
  destruct (dotenv_loop_new lines environ k x Hk Hnone)
    as (line & Hin & He & Hne & Hnk & Hnx).
  destruct (dotenv_entry_shape line k x He) as (Hsk & Hsx & Heq).
  repeat (split; [assumption|]). exists line. auto.
Qed.

Lemma loaded_variables_are_clean_sample :
  "PORT" ≠ "" ∧ stripped "PORT" ∧ stripped "80 80" ∧ no_equals "PORT" = true ∧
  has_nul "PORT" = false ∧ has_nul "80 80" = false ∧
  ∃ line, In line ["  export  PORT =  80 80  "] ∧
          dotenv_entry line = Some ("PORT", "80 80").
Proof.
  apply (loaded_variables_are_clean ["  export  PORT =  80 80  "] ∅ "PORT" "80 80").
  - apply lookup_empty.
  - vm_compute. reflexivity.
Defined.

(** ** Writing a line and reading it back *)

Lemma rstrip_nonempty_fixed (s t : string) :
  t ≠ "" → rstrip t = t → rstrip (s +:+ t) = s +:+ t.
Proof.
  intros Hne Ht. induction s as [|c s IH]; [exact Ht|].
  change (String c s +:+ t) with (String c (s +:+ t)).
  simpl. rewrite IH.
  destruct (s +:+ t) as [|c' r] eqn:Hst; [|reflexivity].
  destruct s; [simpl in Hst; contradiction | discriminate Hst].
Qed.

Lemma rstrip_assignment (value : string) :
  rstrip value = value → rstrip ("=" +:+ value) = "=" +:+ value.
Proof.
  intros Hv. change ("=" +:+ value) with (String "="%char value).
  simpl. rewrite Hv. destruct value; reflexivity.
Qed.

Lemma assignment_stripped (key value : string) :
  stripped key → key ≠ "" → stripped value →
  stripped (key +:+ "=" +:+ value).
Proof.
  intros [Hkl _] Hne [_ Hvr]. split.
  - destruct key as [|c key]; [contradiction|].
    change (String c key +:+ "=" +:+ value)
      with (String c (key +:+ "=" +:+ value)).
    simpl in *. destruct (is_space c) eqn:Hc; [|reflexivity].
    exfalso. pose proof (lstrip_starts key) as Hs.
    rewrite Hkl, Hc in Hs. discriminate.
  - apply rstrip_nonempty_fixed.
    + discriminate.
    + apply rstrip_assignment. exact Hvr.
Qed.

Lemma strip_assignment (key value : string) :
  stripped key → key ≠ "" → stripped value →
  strip (key +:+ "=" +:+ value) = key +:+ "=" +:+ value.
Proof.
  intros Hk Hne Hv. apply stripped_strip, assignment_stripped; assumption.
Qed.

Lemma prefix_append (p s : string) : String.prefix p (p +:+ s) = true.
Proof.
  induction p as [|a p IH]; [destruct s; reflexivity|].
  change (String a p +:+ s) with (String a (p +:+ s)). simpl.
  destruct (ascii_dec a a); [exact IH | contradiction].
Qed.

Lemma partition_assignment (key value : string) :
  no_equals key = true →
  partition_eq (key +:+ "=" +:+ value) = (key, value).
Proof.
  induction key as [|c key IH]; [reflexivity|].
  change (String c key +:+ "=" +:+ value)
    with (String c (key +:+ "=" +:+ value)).
  simpl. intros H. apply andb_true_iff in H as [Hc Hk].
  apply negb_true_iff in Hc. rewrite Hc, (IH Hk). reflexivity.
Qed.

Lemma partition_bare (key : string) :
  no_equals key = true → partition_eq key = (key, "").
Proof.
  induction key as [|c key IH]; [reflexivity|].
  simpl. intros H. apply andb_true_iff in H as [Hc Hk].
  apply negb_true_iff in Hc. rewrite Hc, (IH Hk). reflexivity.
Qed.

Lemma prefix_assignment (p key rest : string) :
  no_equals p = true →
  String.prefix p key = false →
  String.prefix p (key +:+ "=" +:+ rest) = false.
Proof.
  revert key. induction p as [|a p IH]; intros key Hp Hk.
  - destruct key; discriminate Hk.
  - simpl in Hp. apply andb_true_iff in Hp as [Ha Hp].
    destruct key as [|b key].
    + change ("" +:+ "=" +:+ rest) with (String "="%char rest). simpl.
      destruct (ascii_dec a "="); [|reflexivity].
      subst a. discriminate Ha.
    + change (String b key +:+ "=" +:+ rest)
        with (String b (key +:+ "=" +:+ rest)).
      simpl in *. destruct (ascii_dec a b); [|reflexivity].
      apply IH; assumption.
Qed.

(** A line [NAME=value] written with a clean name and value reads back as
    that name and value; so does the bare [NAME], with the empty value. *)
Theorem dotenv_round_trip (key value : string) :
  stripped key → key ≠ "" → no_equals key = true →
  String.prefix "#" key = false →
  String.prefix "export " key = false →
  stripped value →
  dotenv_entry (key +:+ "=" +:+ value) = Some (key, value) ∧
  dotenv_entry key = Some (key, "").
Proof.
  intros Hk Hne Heq Hhash Hexp Hv. split.
  - unfold dotenv_entry.
    rewrite (strip_assignment key value Hk Hne Hv).
    rewrite bool_decide_eq_false_2
      by (destruct key; [contradiction | discriminate]).
    rewrite (prefix_assignment "#" key value eq_refl Hhash).
    rewrite (prefix_assignment "export " key value eq_refl Hexp).
    simpl. rewrite (partition_assignment key value Heq). simpl.
    rewrite (stripped_strip key Hk), (stripped_strip value Hv). reflexivity.
  - unfold dotenv_entry.
    rewrite (stripped_strip key Hk).
    rewrite bool_decide_eq_false_2 by exact Hne.
    rewrite Hhash, Hexp. simpl.
    rewrite (partition_bare key Heq). simpl.
    rewrite (stripped_strip key Hk). reflexivity.
Qed.

Lemma dotenv_round_trip_sample :
  dotenv_entry ("SMARTSHEET_API_TOKEN" +:+ "=" +:+ "abc=def")
  = Some ("SMARTSHEET_API_TOKEN", "abc=def") ∧
  dotenv_entry "SMARTSHEET_API_TOKEN" = Some ("SMARTSHEET_API_TOKEN", "").
Proof.
  apply (dotenv_round_trip "SMARTSHEET_API_TOKEN" "abc=def").
  - split; reflexivity.
  - discriminate.
  - reflexivity.
  - reflexivity.
  - reflexivity.
  - split; reflexivity.
Defined.

(** The same line behind ["export "] reads back the same, and here the
    name may even start with ["#"] or with ["export "]. *)
Theorem dotenv_export_round_trip (key value : string) :
  stripped key → key ≠ "" → no_equals key = true →
  stripped value →
  dotenv_entry ("export " +:+ key +:+ "=" +:+ value) = Some (key, value).
Proof.
  intros Hk Hne Heq Hv. unfold dotenv_entry.
  destruct (assignment_stripped key value Hk Hne Hv) as [_ Hr].
  assert (Hs : strip ("export " +:+ key +:+ "=" +:+ value)
               = "export " +:+ key +:+ "=" +:+ value).
  { unfold strip.
    change (lstrip ("export " +:+ key +:+ "=" +:+ value))
      with ("export " +:+ key +:+ "=" +:+ value).
    apply rstrip_nonempty_fixed; [|exact Hr].
    destruct key; [contradiction | discriminate]. }
  rewrite Hs.
  change (bool_decide ("export " +:+ key +:+ "=" +:+ value = "")) with false.
  change (String.prefix "#" ("export " +:+ key +:+ "=" +:+ value)) with false.
  rewrite prefix_append.
  change (string_drop (String.length "export ")
            ("export " +:+ key +:+ "=" +:+ value))
    with (key +:+ "=" +:+ value).
  simpl. rewrite (partition_assignment key value Heq). simpl.
  rewrite (stripped_strip key Hk), (stripped_strip value Hv). reflexivity.
Qed.

Lemma dotenv_export_round_trip_sample :
  dotenv_entry ("export " +:+ "PORT" +:+ "=" +:+ "8080") = Some ("PORT", "8080").
Proof.
  apply (dotenv_export_round_trip "PORT" "8080").
  - split; reflexivity.
  - discriminate.
  - reflexivity.
  - split; reflexivity.
Defined.

(** ** The token notice at start-up *)

(** The fetch raises a [RuntimeError] proper only for want of a token. *)
Lemma fetch_runtime_error_iff (v : variant) (w : world) (msg : string) :
  (fetch_smartsheet_data v w).1 = Raise (RuntimeError msg) ↔
  token_missing w ∧ msg = token_message v.
Proof.
  split.
  - intros Hf.
    destruct (fetch_raise_inv _ _ _ Hf)
      as [[Hm He]|[[_ He]|[(_ & c & s & m & code & reason & _ & _ & _ & _ & He)
                         |(_ & m & He)]]];
      [|discriminate He|discriminate He|discriminate He].
    injection He as ->. auto.
  - intros [Hm ->]. rewrite (fetch_token_missing v w Hm). reflexivity.
Qed.

Lemma load_dotenv_token_stripped
    (file : dotenv_file) (environ : environment) (x : string) :
  environ !! token_variable = None →
  (load_dotenv file environ).2 !! token_variable = Some x →
  stripped x.
Proof.
  intros Hnone Hx. destruct file as [|msg|lines]; simpl in Hx;
    try (rewrite Hnone in Hx; discriminate).
  destruct (dotenv_loop_new lines environ _ x Hx Hnone) as (line & _ & He & _).
  destruct (dotenv_entry_shape line _ x He) as (_ & Hsx & _). exact Hsx.
Qed.

(** When the start-up check finds no token and announces that the API
    route will return 503, the route does return 503, whatever the
    configuration and the remote API. *)
Theorem announced_503_is_returned
    (environ : environment) (config : config_outcome)
    (remote : request → upstream_outcome) (dumps : json → dumps_outcome)
    (log : list request) :
  token_detected environ = false →
  status (handle_api ServerPy (world_of environ config remote dumps log)).1 = 503.
Proof.
  intros Hd. rewrite status_503_of_token_missing; [reflexivity|].
  unfold token_missing, world_of. simpl.
  unfold token_detected in Hd.
  destruct (environ !! token_variable) as [x|]; simpl; [|reflexivity].
  apply negb_false_iff, bool_decide_eq_true in Hd. subst x. reflexivity.
Qed.

Lemma announced_503_is_returned_sample :
  status (handle_api ServerPy
            (world_of (<["PATH" := "/usr/bin"]> ∅) (ConfigLoaded Sample.config)
               (λ _, UpSheet Sample.sheet) (λ _, DumpsOk) [])).1 = 503.
Proof.
  apply (announced_503_is_returned (<["PATH" := "/usr/bin"]> ∅)).
  vm_compute. reflexivity.
Defined.

(** When the token is not in the environment before [load_dotenv] runs,
    the start-up check agrees with the token check of the fetch: it finds a
    token after the load if and only if the fetch does not raise its
    missing-token [RuntimeError]. *)
Theorem notice_exact_for_dotenv_token
    (file : dotenv_file) (environ : environment)
    (config : config_outcome) (remote : request → upstream_outcome)
    (dumps : json → dumps_outcome) (log : list request) :
  environ !! token_variable = None →
  token_detected (load_dotenv file environ).2 = true ↔
  (fetch_smartsheet_data ServerPy
     (world_of (load_dotenv file environ).2 config remote dumps log)).1
  ≠ Raise (RuntimeError (token_message ServerPy)).
Proof.
  intros Hnone.
  assert (Hiff : token_detected (load_dotenv file environ).2 = true ↔
                 ¬ token_missing
                     (world_of (load_dotenv file environ).2 config remote dumps log)).
  { unfold token_missing, world_of, token_detected. simpl.
    destruct ((load_dotenv file environ).2 !! token_variable) as [x|] eqn:Hx; simpl.
    - pose proof (load_dotenv_token_stripped file environ x Hnone Hx) as Hs.
      destruct (decide (x = "")) as [->|Hne].
      + simpl. split; [discriminate | intros H; exfalso; apply H; reflexivity].
      + rewrite bool_decide_eq_false_2 by exact Hne. simpl.
        rewrite (stripped_not_blank x Hs Hne). split; [discriminate | reflexivity].
    - split; [discriminate | intros H; exfalso; apply H; reflexivity]. }
  rewrite Hiff, fetch_runtime_error_iff. split.
  - intros Hm [Hm' _]. contradiction.
  - intros H Hm. apply H. split; [exact Hm | reflexivity].
Qed.

Lemma notice_exact_for_dotenv_token_sample :
  token_detected
    (load_dotenv (DotenvLines ["SMARTSHEET_API_TOKEN=   "]) ∅).2 = true ↔
  (fetch_smartsheet_data ServerPy
     (world_of (load_dotenv (DotenvLines ["SMARTSHEET_API_TOKEN=   "]) ∅).2
        (ConfigLoaded Sample.config) (λ _, UpSheet Sample.sheet)
        (λ _, DumpsOk) [])).1
  ≠ Raise (RuntimeError (token_message ServerPy)).
Proof.
  apply (notice_exact_for_dotenv_token
           (DotenvLines ["SMARTSHEET_API_TOKEN=   "]) ∅).
  apply lookup_empty.
Defined.

(** A blank token that comes from the environment itself defeats the
    check: the notice says the route is available, the route returns 503. *)
Example blank_shell_token_defeats_notice :
  token_detected (<["SMARTSHEET_API_TOKEN" := "  "]> ∅) = true ∧
  status (handle_api ServerPy
            (world_of (<["SMARTSHEET_API_TOKEN" := "  "]> ∅)
               (ConfigLoaded Sample.config) (λ _, UpSheet Sample.sheet)
               (λ _, DumpsOk) [])).1
  = 503.
Proof. split; vm_compute; reflexivity. Qed.

(** A token that only the [.env] file gives is the one the handler uses:
    with a configuration that has both keys, handling a request calls
    [urlopen] once, with that token, as it stands in the file after
    stripping, behind ["Bearer "]. *)
Theorem dotenv_token_is_used
    (file : dotenv_file) (environ : environment) (x : string)
    (config sheet_id col_map : json)
    (remote : request → upstream_outcome) (dumps : json → dumps_outcome)
    (log : list request) :
  environ !! token_variable = None →
  (load_dotenv file environ).2 !! token_variable = Some x →
  x ≠ "" →
  py_getitem config "sheet_id" = Ok sheet_id →
  py_getitem config "column_map" = Ok col_map →
  opened (handle_api ServerPy (world_of (load_dotenv file environ).2
                                 (ConfigLoaded config) remote dumps log)).2
  = log ++ [{| req_sheet_id := sheet_id;
               req_authorization := "Bearer " +:+ x;
               req_accept := "application/json" |}].
Proof.
  intros Hnone Hx Hne Hs Hc.
  pose proof (load_dotenv_token_stripped file environ x Hnone Hx) as Hst.
  rewrite handle_api_world.
  rewrite (fetch_one_call ServerPy _ x config sheet_id col_map);
    try assumption; try reflexivity.
  - simpl. rewrite (stripped_strip x Hst). reflexivity.
  - rewrite (stripped_strip x Hst). exact Hne.
Qed.

Lemma dotenv_token_is_used_sample :
  opened (handle_api ServerPy
            (world_of
               (load_dotenv (DotenvLines ["export SMARTSHEET_API_TOKEN = s3cret "]) ∅).2
               (ConfigLoaded Sample.config) (λ _, UpSheet Sample.sheet)
               (λ _, DumpsOk) [])).2
  = [] ++ [{| req_sheet_id := JStr "123";
              req_authorization := "Bearer " +:+ "s3cret";
              req_accept := "application/json" |}].
Proof.
  apply (dotenv_token_is_used
           (DotenvLines ["export SMARTSHEET_API_TOKEN = s3cret "]) ∅ "s3cret"
           Sample.config (JStr "123") Sample.col_map).
  - apply lookup_empty.
  - vm_compute. reflexivity.
  - discriminate.
  - reflexivity.
  - reflexivity.
Defined.
